(** * cleverhans/model.py: the [Model] interface and [KerasModelWrapper]

    A shallow embedding of [src/cleverhans/model.py].  The Python objects
    are records, attribute mutation is explicit state passing, exceptions
    are an outcome type, and the Keras API the wrapper calls into
    ([model.layers], [layer.get_config()], [model.get_layer],
    [model.get_input_at], [keras.models.Model], calling a model on a
    tensor) is a small functional model whose only uninterpreted parts are
    the type of symbolic tensors and the graph re-application function. *)

From stdpp Require Import gmap strings list fin_maps relations.

Local Open Scope string_scope.
Set Warnings "-register-all".

(** ** Python outcomes and the state/exception monad *)

Inductive exn :=
| KeyError
| IndexError
| TypeError
| ValueError (msg : string)
| NotImplementedError (msg : string)
| AssertionError
| AttributeError (msg : string)
| RuntimeError (msg : string)
| Exception (msg : string).

Inductive outcome (A : Type) :=
| Ok (a : A)
| Raise (e : exn).
Arguments Ok {A} a.
Arguments Raise {A} e.

(** What lives outside the wrapper object: the lines written by [print]
    and the number of [keras.models.Model(...)] constructions so far (the
    next object identity Keras hands out). *)
Record world := World { stdout : list string; keras_built : nat }.

(** A method body run on a receiver of type [S]: it returns a value or
    raises, and in both cases leaves a receiver and a world behind. *)
Definition Py (S A : Type) : Type := S * world → outcome A * (S * world).

Definition py_ret {S A} (a : A) : Py S A := λ σ, (Ok a, σ).

Definition py_bind {S A B} (k : A → Py S B) (m : Py S A) : Py S B :=
  λ σ, match m σ with
       | (Ok a, σ') => k a σ'
       | (Raise e, σ') => (Raise e, σ')
       end.

#[global] Instance Py_MRet {S} : MRet (Py S) := @py_ret S.
#[global] Instance Py_MBind {S} : MBind (Py S) := @py_bind S.

Definition raise {S A} (e : exn) : Py S A := λ σ, (Raise e, σ).
Definition lift {S A} (o : outcome A) : Py S A := λ σ, (o, σ).
Definition get_self {S} : Py S S := λ σ, (Ok (fst σ), σ).
Definition modify_self {S} (f : S → S) : Py S unit :=
  λ σ, (Ok tt, (f (fst σ), snd σ)).
Definition py_print {S} (line : string) : Py S unit :=
  λ σ, (Ok tt, (fst σ, World (stdout (snd σ) ++ [line]) (keras_built (snd σ)))).

Definition result {S A} (r : outcome A * (S * world)) : outcome A := fst r.
Definition self_after {S A} (r : outcome A * (S * world)) : S := fst (snd r).
Definition world_after {S A} (r : outcome A * (S * world)) : world := snd (snd r).

(** [[f(a) for a in l]] where [f] may raise. *)
Fixpoint comprehension {S A B} (f : A → Py S B) (l : list A) : Py S (list B) :=
  match l with
  | [] => mret []
  | a :: l' => b ← f a; bs ← comprehension f l'; mret (b :: bs)
  end.

(** [seq[i]] on a Python list. *)
Definition index {A} (l : list A) (i : nat) : outcome A :=
  match l !! i with
  | Some a => Ok a
  | None => Raise IndexError
  end.

(** ** [collections.OrderedDict] with string keys

    An association list without repeated keys, in insertion order:
    assigning to a key already present overwrites the value in place. *)
Section OrderedDict.
Context {V : Type}.

Definition odict := list (string * V).

Fixpoint od_setitem (k : string) (v : V) (d : odict) : odict :=
  match d with
  | [] => [(k, v)]
  | (k', v') :: d' =>
      if decide (k' = k) then (k, v) :: d' else (k', v') :: od_setitem k v d'
  end.

Fixpoint od_get (k : string) (d : odict) : option V :=
  match d with
  | [] => None
  | (k', v') :: d' => if decide (k' = k) then Some v' else od_get k d'
  end.


(** [OrderedDict(pairs)] *)
Definition OrderedDict (pairs : list (string * V)) : odict :=
  foldl (λ d kv, od_setitem kv.1 kv.2 d) [] pairs.

(** [d[k]] *)
Definition od_getitem (k : string) (d : odict) : outcome V :=
  match od_get k d with
  | Some v => Ok v
  | None => Raise KeyError
  end.
End OrderedDict.
Arguments odict V : clear implicits.

(** ** The part of Keras the wrapper relies on *)

(** Values found in a layer configuration dictionary. *)
Inductive pyval :=
| PyStr (s : string)
| PyInt (n : Z)
| PyBool (b : bool)
| PyNone.

(** [v == s] for a string literal [s]. *)
Definition py_eq_str (v : pyval) (s : string) : bool :=
  match v with
  | PyStr s' => bool_decide (s' = s)
  | _ => false
  end.

(** A node of the Keras graph, one per use of a layer: the layers it takes
    its input from ([node.inbound_layers]) and the tensor the layer puts
    out there ([node.output_tensors], a single tensor in this model). *)
Record node (T L : Type) := Node { inbound_layers : list L; output_tensors : T }.
Arguments Node {T L} _ _.
Arguments inbound_layers {T L} _.
Arguments output_tensors {T L} _.

Section Keras.
(** Symbolic tensors are opaque; they are hashable, since the base class
    uses them in dictionary keys. *)
Context {tensor : Type} `{Countable tensor}.

(** [rewire i o x]: the tensor computed by the graph that leads from the
    input [i] to the output [o], when that graph is applied to [x]. *)
Variable rewire : tensor → tensor → tensor → tensor.

(** [tf.nn.softmax_cross_entropy_with_logits(logits=_, labels=_)] *)
Variable softmax_cross_entropy_with_logits : tensor → tensor → tensor.

(** A Keras layer: [layer.name], [layer.get_config()] and
    [layer.inbound_nodes]. *)
Inductive layer := Layer {
  name : string;
  get_config : gmap string pyval;
  inbound_nodes : list (node tensor layer)
}.

(** [layer.output]: defined only for a layer with exactly one inbound
    node, whose output tensor it is. *)
Definition output (l : layer) : outcome tensor :=
  match inbound_nodes l with
  | [] => Raise (AttributeError ("Layer " ++ name l ++ " has no inbound nodes."))
  | [nd] => Ok (output_tensors nd)
  | _ :: _ :: _ =>
      Raise (AttributeError ("Layer " ++ name l ++ " has multiple inbound nodes, "
                             ++ "hence the notion of 'layer output' is ill-defined. "
                             ++ "Use `get_output_at(node_index)` instead."))
  end.

(** The wrapped Keras model: [model.layers]; the input tensors of its
    inbound nodes, read by [model.get_input_at]; and the layers that
    [model.get_layer] finds although [model.layers] does not list them --
    the input layer of a [Sequential], none for a functional model. *)
Record keras_model := KerasModel {
  layers : list layer;
  inputs : list tensor;
  input_layers : list layer
}.

(** [model.get_input_at(node_index)] *)
Definition get_input_at (m : keras_model) (node_index : nat) : outcome tensor :=
  match inputs m with
  | [] => Raise (RuntimeError
                   "The layer has never been called and thus has no defined input.")
  | _ :: _ =>
      match inputs m !! node_index with
      | Some t => Ok t
      | None => Raise (ValueError "Asked to get input at a node the layer does not have")
      end
  end.

(** The layers [model.get_layer] searches, in its order. *)
Definition get_layer_scope (m : keras_model) : list layer :=
  input_layers m ++ layers m.

Fixpoint find_layer (ls : list layer) (nm : string) : outcome layer :=
  match ls with
  | [] => Raise (ValueError ("No such layer: " ++ nm))
  | l :: ls' => if decide (name l = nm) then Ok l else find_layer ls' nm
  end.

(** [model.get_layer(name)]: an empty name is refused; otherwise the first
    layer in scope with that name. *)
Definition get_layer (m : keras_model) (nm : string) : outcome layer :=
  if decide (nm = EmptyString) then Raise (ValueError "Provide either a layer name or layer index.")
  else find_layer (get_layer_scope m) nm.

(** What a call returns: one tensor, or a list of tensors. *)
Inductive pyobj :=
| Tensor (t : tensor)
| TensorList (ts : list tensor).

(** An object built by [keras.models.Model(input, outputs)]; [km_id] is
    its identity. *)
Record keras_Model := KModel {
  km_id : nat;
  km_input : tensor;
  km_outputs : pyobj
}.

(** [keras.models.Model(new_input, outputs)] *)
Definition keras_models_Model {Self} (new_input : tensor) (outputs : pyobj)
  : Py Self keras_Model :=
  λ σ, (Ok (KModel (keras_built (snd σ)) new_input outputs),
        (fst σ, World (stdout (snd σ)) (S (keras_built (snd σ))))).

(** [m(x)] for a built model [m]: every output is recomputed on [x].  A
    model with a single output returns the bare tensor, also when it was
    built from a one-element list; otherwise it returns the list of
    results, one per output and in the same order.  The application itself
    is symbolic: it is taken to succeed, and the nodes it adds to the
    backend graph are not part of the state. *)
Definition keras_call (m : keras_Model) (x : tensor) : pyobj :=
  match km_outputs m with
  | Tensor o => Tensor (rewire (km_input m) o x)
  | TensorList [o] => Tensor (rewire (km_input m) o x)
  | TensorList os => TensorList (map (λ o, rewire (km_input m) o x) os)
  end.

(** [zip(names, outputs)]: iterating a single tensor is a type error. *)
Definition py_zip (names : list string) (outputs : pyobj)
  : outcome (list (string * tensor)) :=
  match outputs with
  | TensorList ts => Ok (zip names ts)
  | Tensor _ => Raise TypeError
  end.

(** ** class Model *)

(** The attributes set by [Model.__init__]. *)
Record Model (M : Type) := MkModel {
  model : M;
  fprop_cache : gmap (tensor * bool) (odict tensor);
  train : bool
}.
Arguments MkModel {M} _ _ _.
Arguments model {M} _.
Arguments fprop_cache {M} _.
Arguments train {M} _.

Definition Model___init__ {M} (model : M) : Model M :=
  MkModel model ∅ false.

(** A class deriving from [Model]: where its [Model] attributes live,
    and the methods the base class calls through [self]. *)
Class ModelClass (M S : Type) := {
  as_Model : S → Model M;
  with_Model : Model M → S → S;
  fprop_probs : tensor → Py S pyobj;
  get_layer_names : Py S (list string)
}.

Section BaseClass.
Context {M S : Type} `{!ModelClass M S}.

Definition Model___call__ (x : tensor) : Py S pyobj :=
  fprop_probs x.

Definition Model_set_train (train' : bool) : Py S unit :=
  modify_self (λ self,
    with_Model (MkModel (model (as_Model self))
                        (fprop_cache (as_Model self)) train') self);;
  let state_str := if train' then "Training" else "Inference" in
  py_print ("Set the model to " ++ state_str).

(** [self.fprop_cache[(x, self.train)]] *)
Definition fprop_cache_getitem (x : tensor) : Py S (odict tensor) :=
  self ← get_self;
  match fprop_cache (as_Model self) !! (x, train (as_Model self)) with
  | Some d => mret d
  | None => raise KeyError
  end.

Definition Model_fprop_layer (x : tensor) (layer : string) : Py S tensor :=
  d ← fprop_cache_getitem x;
  lift (od_getitem layer d).

Definition Model_fprop_logits (x : tensor) : Py S pyobj :=
  raise (NotImplementedError "`fprop_logits` not implemented").


Definition Model_get_layer_names : Py S (list string) :=
  raise (NotImplementedError "`get_layer_names` not implemented").

Definition Model_fprop (x : tensor) : Py S (odict tensor) :=
  self ← get_self;
  if bool_decide ((x, train (as_Model self)) ∈ dom (fprop_cache (as_Model self)))
  then fprop_cache_getitem x
  else
    names ← get_layer_names;
    checks ← comprehension
               (λ layer, d ← fprop_cache_getitem x;
                         mret (bool_decide (is_Some (od_get layer d))))
               names;
    (if forallb id checks then mret tt else raise AssertionError);;
    raise (NotImplementedError "`fprop` not implemented").

Definition Model_get_loss (x y logits : tensor) (mean : bool) : Py S tensor :=
  raise (NotImplementedError "`get_loss` not implemented").
End BaseClass.

(** The abstract class itself, instantiated directly. *)
#[global] Instance Model_ModelClass {M} : ModelClass M (Model M) := {
  as_Model := id;
  with_Model := λ m _, m;
  fprop_probs := λ x, raise (NotImplementedError "`fprop_probs` not implemented");
  get_layer_names := raise (NotImplementedError "`get_layer_names` not implemented")
}.

(** ** class KerasModelWrapper(Model) *)

Record KerasModelWrapper := MkKerasModelWrapper {
  super : Model keras_model;
  modelw_layer : gmap string keras_Model;
  modelw : option keras_Model
}.

Definition set_modelw_layer (layer : string) (m : keras_Model)
    (self : KerasModelWrapper) : KerasModelWrapper :=
  MkKerasModelWrapper (super self) (<[layer := m]> (modelw_layer self)) (modelw self).

Definition set_modelw (m : keras_Model) (self : KerasModelWrapper)
  : KerasModelWrapper :=
  MkKerasModelWrapper (super self) (modelw_layer self) (Some m).

Definition KerasModelWrapper___init__ (model : keras_model) : KerasModelWrapper :=
  let self := Model___init__ model in
  MkKerasModelWrapper (MkModel model (fprop_cache self) (train self)) ∅ None.

Definition KerasModelWrapper_fprop_layer (x : tensor) (layer : string)
  : Py KerasModelWrapper pyobj :=
  self ← get_self;
  let model := model (super self) in
  match modelw_layer self !! layer with
  | Some cached => mret (keras_call cached x)
  | None =>
      new_input ← lift (get_input_at model 0);
      l ← lift (get_layer model layer);
      target_feat ← lift (output l);
      new_model ← keras_models_Model new_input (Tensor target_feat);
      modify_self (set_modelw_layer layer new_model);;
      mret (keras_call new_model x)
  end.

(** ['activation' in cfg and cfg['activation'] == 'softmax'] *)
Definition activation_is_softmax (cfg : gmap string pyval) : bool :=
  match cfg !! "activation" with
  | Some v => py_eq_str v "softmax"
  | None => false
  end.

Fixpoint softmax_scan (ls : list layer) : outcome string :=
  match ls with
  | [] => Raise (Exception "No softmax layers found")
  | layer :: ls' =>
      let cfg := get_config layer in
      if activation_is_softmax cfg then Ok (name layer) else softmax_scan ls'
  end.

Definition KerasModelWrapper__get_softmax_name : Py KerasModelWrapper string :=
  self ← get_self;
  lift (softmax_scan (layers (model (super self)))).

Definition KerasModelWrapper__get_logits_name : Py KerasModelWrapper string :=
  softmax_name ← KerasModelWrapper__get_softmax_name;
  self ← get_self;
  softmax_layer ← lift (get_layer (model (super self)) softmax_name);
  node ← lift (index (inbound_nodes softmax_layer) 0);
  l ← lift (index (inbound_layers node) 0);
  let logits_name := name l in
  mret logits_name.

Definition KerasModelWrapper_fprop_logits (x : tensor) : Py KerasModelWrapper pyobj :=
  logits_name ← KerasModelWrapper__get_logits_name;
  KerasModelWrapper_fprop_layer x logits_name.

Definition KerasModelWrapper_fprop_probs (x : tensor) : Py KerasModelWrapper pyobj :=
  name ← KerasModelWrapper__get_softmax_name;
  KerasModelWrapper_fprop_layer x name.

Definition KerasModelWrapper_get_layer_names : Py KerasModelWrapper (list string) :=
  self ← get_self;
  let layer_names := map name (layers (model (super self))) in
  mret layer_names.

Definition KerasModelWrapper__create_modelw : Py KerasModelWrapper keras_Model :=
  self ← get_self;
  let model := model (super self) in
  new_input ← lift (get_input_at model 0);
  layer_names ← KerasModelWrapper_get_layer_names;
  outputs ← comprehension (λ name, l ← lift (get_layer model name); lift (output l))
                          layer_names;
  modelw ← keras_models_Model new_input (TensorList outputs);
  mret modelw.

Definition KerasModelWrapper_fprop (x : tensor) : Py KerasModelWrapper (odict tensor) :=
  self ← get_self;
  match modelw self with
  | None => m ← KerasModelWrapper__create_modelw; modify_self (set_modelw m)
  | Some _ => mret tt
  end;;
  layer_names ← KerasModelWrapper_get_layer_names;
  self ← get_self;
  outputs ← match modelw self with
            | Some m => mret (keras_call m x)
            | None => raise TypeError
            end;
  pairs ← lift (py_zip layer_names outputs);
  let out_dict := OrderedDict pairs in
  mret out_dict.

Definition KerasModelWrapper_get_loss (x y logits : tensor)
  : Py KerasModelWrapper tensor :=
  let out := softmax_cross_entropy_with_logits logits y in
  mret out.

(** Method resolution: the attributes of [Model] sit in [super], and
    [self.fprop_probs] / [self.get_layer_names] are the overrides. *)
#[global] Instance KerasModelWrapper_ModelClass
  : ModelClass keras_model KerasModelWrapper := {
  as_Model := super;
  with_Model := λ m self, MkKerasModelWrapper m (modelw_layer self) (modelw self);
  fprop_probs := KerasModelWrapper_fprop_probs;
  get_layer_names := KerasModelWrapper_get_layer_names
}.

(** Inherited, not overridden. *)
Definition KerasModelWrapper___call__ : tensor → Py KerasModelWrapper pyobj :=
  Model___call__.
Definition KerasModelWrapper_set_train : bool → Py KerasModelWrapper unit :=
  Model_set_train.

(** ** Histories of a wrapper

    Every method of the class that client code can invoke on a wrapper;
    a history is a sequence of such invocations, whatever they return. *)
Inductive method_call :=
| call_set_train (train : bool)
| call___call__ (x : tensor)
| call_fprop_layer (x : tensor) (layer : string)
| call_fprop_logits (x : tensor)
| call_fprop_probs (x : tensor)
| call_get_layer_names
| call_fprop (x : tensor)
| call_get_loss (x y logits : tensor)
| call__get_softmax_name
| call__get_logits_name
| call__create_modelw.

Definition discard {A} (m : Py KerasModelWrapper A) : Py KerasModelWrapper unit :=
  _ ← m; mret tt.

Definition invoke (c : method_call) : Py KerasModelWrapper unit :=
  match c with
  | call_set_train t => KerasModelWrapper_set_train t
  | call___call__ x => discard (KerasModelWrapper___call__ x)
  | call_fprop_layer x layer => discard (KerasModelWrapper_fprop_layer x layer)
  | call_fprop_logits x => discard (KerasModelWrapper_fprop_logits x)
  | call_fprop_probs x => discard (KerasModelWrapper_fprop_probs x)
  | call_get_layer_names => discard KerasModelWrapper_get_layer_names
  | call_fprop x => discard (KerasModelWrapper_fprop x)
  | call_get_loss x y logits => discard (KerasModelWrapper_get_loss x y logits)
  | call__get_softmax_name => discard KerasModelWrapper__get_softmax_name
  | call__get_logits_name => discard KerasModelWrapper__get_logits_name
  | call__create_modelw => discard KerasModelWrapper__create_modelw
  end.

Definition state : Type := KerasModelWrapper * world.

Definition step (σ σ' : state) : Prop := ∃ c, snd (invoke c σ) = σ'.

(** The states a wrapper of [m] can be in: [KerasModelWrapper(m)] followed
    by any history. *)
Definition reachable (m : keras_model) (σ : state) : Prop :=
  ∃ w, rtc step (KerasModelWrapper___init__ m, w) σ.

Fixpoint run (cs : list method_call) (σ : state) : state :=
  match cs with
  | [] => σ
  | c :: cs' => run cs' (snd (invoke c σ))
  end.

(** ** Specification vocabulary *)

(** [km] is what [fprop_layer] builds for [layer_name]: the graph from
    the model's input to that layer's output. *)
Definition layer_model_of (m : keras_model) (layer_name : string) (km : keras_Model)
  : Prop :=
  ∃ i l o, get_input_at m 0 = Ok i ∧ get_layer m layer_name = Ok l
           ∧ output l = Ok o
           ∧ km_input km = i ∧ km_outputs km = Tensor o.

(** [[model.get_layer(name).output for name in names]] *)
Fixpoint outputs_of (m : keras_model) (names : list string) : outcome (list tensor) :=
  match names with
  | [] => Ok []
  | nm :: names' =>
      match get_layer m nm with
      | Raise e => Raise e
      | Ok l =>
          match output l with
          | Raise e => Raise e
          | Ok o =>
              match outputs_of m names' with
              | Raise e => Raise e
              | Ok os => Ok (o :: os)
              end
          end
      end
  end.

(** [km] is what [_create_modelw] builds: one output per layer name, in
    the order of [model.layers]. *)
Definition all_layers_model_of (m : keras_model) (km : keras_Model) : Prop :=
  ∃ i outs, get_input_at m 0 = Ok i ∧ km_input km = i
            ∧ km_outputs km = TensorList outs
            ∧ outputs_of m (map name (layers m)) = Ok outs.

(** Keras names every layer of a model, and no two alike. *)
Definition well_named (m : keras_model) : Prop :=
  NoDup (map name (get_layer_scope m))
  ∧ EmptyString ∉ map name (get_layer_scope m).

(** The caches of a wrapper of [m] hold only models built from [m]. *)
Definition wrapper_inv (m : keras_model) (s : KerasModelWrapper) : Prop :=
  model (super s) = m
  ∧ (∀ layer_name km, modelw_layer s !! layer_name = Some km →
                      layer_model_of m layer_name km)
  ∧ (∀ km, modelw s = Some km → all_layers_model_of m km).

(** How a wrapper changes over time: the wrapped model and the base-class
    cache stay, cache entries are only ever added, and the count of
    built Keras models only grows. *)
Definition evolves (σ σ' : state) : Prop :=
  model (super σ'.1) = model (super σ.1)
  ∧ fprop_cache (super σ'.1) = fprop_cache (super σ.1)
  ∧ (∀ layer_name km, modelw_layer σ.1 !! layer_name = Some km →
                      modelw_layer σ'.1 !! layer_name = Some km)
  ∧ (∀ km, modelw σ.1 = Some km → modelw σ'.1 = Some km)
  ∧ (keras_built σ.2 ≤ keras_built σ'.2)%nat.

(** A method body that only ever moves a wrapper forward and keeps its
    caches sound. *)
Definition well_behaved {A} (f : Py KerasModelWrapper A) : Prop :=
  ∀ σ, evolves σ (snd (f σ))
       ∧ ∀ m, wrapper_inv m σ.1 → wrapper_inv m (snd (f σ)).1.

(** The same state with another train flag and another output log. *)
Definition relabel (t : bool) (out : list string) (σ : state) : state :=
  (MkKerasModelWrapper
     (MkModel (model (super σ.1)) (fprop_cache (super σ.1)) t)
     (modelw_layer σ.1) (modelw σ.1),
   World out (keras_built σ.2)).

(** A method body that neither reads the train flag nor the output log:
    run on a relabelled state, it returns the same outcome and ends in
    the relabelled end state. *)
Definition train_blind {A} (f : Py KerasModelWrapper A) : Prop :=
  ∀ t out σ, f (relabel t out σ) = (fst (f σ), relabel t out (snd (f σ))).

(** Two histories that are the same call for call, except for the
    arguments given to [set_train]. *)
Definition same_but_set_train (cs1 cs2 : list method_call) : Prop :=
  Forall2 (λ c1 c2, c1 = c2 ∨ ∃ t1 t2, c1 = call_set_train t1 ∧ c2 = call_set_train t2)
          cs1 cs2.

(** The wrapper with its all-layers model forgotten, so that the next
    [fprop] constructs it anew. *)
Definition forget_modelw (σ : state) : state :=
  (MkKerasModelWrapper (super σ.1) (modelw_layer σ.1) None, σ.2).

(** The arguments of the [set_train] calls of a history, in order. *)
Definition set_train_args (cs : list method_call) : list bool :=
  omap (λ c, match c with call_set_train t => Some t | _ => None end) cs.

(** The line [set_train(t)] prints. *)
Definition set_train_line (t : bool) : string :=
  "Set the model to " ++ (if t then "Training" else "Inference").

(** Every method but [_create_modelw], which hands the model it builds to
    its caller, stores the models it builds. *)
Definition stores_what_it_builds (c : method_call) : bool :=
  match c with
  | call__create_modelw => false
  | _ => true
  end.

(** How many built Keras models the wrapper holds: one per entry of
    [modelw_layer], plus [modelw] once set. *)
Definition models_held (s : KerasModelWrapper) : nat :=
  size (modelw_layer s) + match modelw s with Some _ => 1 | None => 0 end.

(** A method body that builds one Keras model for each model the wrapper
    holds afterwards and did not hold before. *)
Definition accounted {A} (f : Py KerasModelWrapper A) : Prop :=
  ∀ σ, keras_built (snd (f σ)).2 + models_held σ.1
       = keras_built σ.2 + models_held (snd (f σ)).1.
End Keras.

Arguments layer tensor : clear implicits.
Arguments keras_model tensor : clear implicits.
Arguments pyobj tensor : clear implicits.
Arguments keras_Model tensor : clear implicits.
Arguments Model tensor {_ _} M.
Arguments KerasModelWrapper tensor {_ _}.
Arguments ModelClass tensor {_ _} M S.
Arguments method_call tensor : clear implicits.
Arguments state tensor {_ _}.
Arguments MkModel {tensor _ _ M} _ _ _.
Arguments model {tensor _ _ M} _.
Arguments fprop_cache {tensor _ _ M} _.
Arguments train {tensor _ _ M} _.

(** ** The spec's reading of "softmax layer"

    Written from the glossary, to be compared with
    [KerasModelWrapper__get_softmax_name]: the final layer of the model
    whose activation is softmax. *)
Definition final_softmax_name {tensor} (m : keras_model tensor) : option string :=
  name <$> last (filter (λ l, activation_is_softmax (get_config l) = true) (layers m)).

(** ** A concrete instance

    Tensors are their printed names; a three-layer classifier and a model
    with two softmax activations. *)
Module Example.
Definition rewire (i o x : string) : string := o ++ "[" ++ i ++ ":=" ++ x ++ "]".
Definition xent (logits y : string) : string := "xent(" ++ logits ++ "," ++ y ++ ")".

Definition activation (a : string) : gmap string pyval :=
  {[ "activation" := PyStr a; "trainable" := PyBool true ]}.

Definition input_1 : layer string :=
  Layer "input_1" {[ "sparse" := PyBool false ]} [Node [] "input_1:0"].
Definition dense_1 : layer string :=
  Layer "dense_1" (activation "relu") [Node [input_1] "dense_1/Relu:0"].
Definition dense_2 : layer string :=
  Layer "dense_2" (activation "linear") [Node [dense_1] "dense_2/BiasAdd:0"].
Definition activation_1 : layer string :=
  Layer "activation_1" (activation "softmax") [Node [dense_2] "activation_1/Softmax:0"].

Definition classifier : keras_model string :=
  KerasModel [input_1; dense_1; dense_2; activation_1] ["input_1:0"] [].

(** An attention-like block with its own softmax ahead of the output
    softmax. *)
Definition attention_1 : layer string :=
  Layer "attention_1" (activation "softmax") [Node [dense_1] "attention_1/Softmax:0"].
Definition dense_3 : layer string :=
  Layer "dense_3" (activation "linear") [Node [attention_1] "dense_3/BiasAdd:0"].
Definition activation_2 : layer string :=
  Layer "activation_2" (activation "softmax") [Node [dense_3] "activation_2/Softmax:0"].

Definition two_softmax : keras_model string :=
  KerasModel [input_1; dense_1; attention_1; dense_3; activation_2] ["input_1:0"] [].

(** A model without any softmax activation, and one whose softmax layer
    has no inbound node. *)
Definition regressor : keras_model string :=
  KerasModel [input_1; dense_1; dense_2] ["input_1:0"] [].
Definition detached_softmax : layer string :=
  Layer "activation_3" (activation "softmax") [].
Definition detached : keras_model string :=
  KerasModel [input_1; detached_softmax] ["input_1:0"] [].

(** A model that was never given an input. *)
Definition unbuilt : keras_model string :=
  KerasModel [dense_1; dense_2; activation_1] [] [].

(** A [Sequential] with a single layer: [model.layers] lists the dense
    layer only, [get_layer] also finds the input layer. *)
Definition dense_1_input : layer string :=
  Layer "dense_1_input" {[ "sparse" := PyBool false ]} [Node [] "dense_1_input:0"].
Definition only_dense : layer string :=
  Layer "dense_1" (activation "softmax") [Node [dense_1_input] "dense_1/Softmax:0"].
Definition one_layer : keras_model string :=
  KerasModel [only_dense] ["dense_1_input:0"] [dense_1_input].


Definition w0 : world := World [] 0.

Definition fresh (m : keras_model string) : state string :=
  (KerasModelWrapper___init__ m, w0).

(** A base-class object whose cache was filled by hand. *)
Definition cached : Model string unit :=
  MkModel tt {[ ("x", false) := [("dense_1", "h"); ("probs", "p")] ]} false.
End Example.

(** * Properties *)

Local Open Scope list_scope.

Ltac proj_simpl :=
  unfold set_modelw_layer, set_modelw, forget_modelw, relabel in *;
  cbn [fst snd super modelw_layer modelw model fprop_cache train
       keras_built stdout km_input km_outputs km_id] in *.

Ltac py_unfold :=
  unfold mbind, mret, Py_MBind, Py_MRet, py_bind, py_ret,
    raise, lift, get_self, modify_self, py_print,
    result, self_after, world_after in *.

Section MonadEquations.
Context {S A B : Type}.

Lemma bind_eq (f : Py S A) (k : A → Py S B) (σ : S * world) :
  (f ≫= k) σ = match f σ with
               | (Ok a, σ') => k a σ'
               | (Raise e, σ') => (Raise e, σ')
               end.
Proof. reflexivity. Qed.

Lemma ret_eq (a : A) (σ : S * world) : (mret a : Py S A) σ = (Ok a, σ).
Proof. reflexivity. Qed.

Lemma lift_eq (o : outcome A) (σ : S * world) : lift o σ = (o, σ).
Proof. reflexivity. Qed.
End MonadEquations.

Section BaseClassProperties.
Context {tensor : Type} `{Countable tensor}.
Context {M S : Type} `{!ModelClass tensor M S}.

Lemma fprop_cache_getitem_eq (x : tensor) (σ : S * world) :
  fprop_cache_getitem x σ
  = (match fprop_cache (as_Model σ.1) !! (x, train (as_Model σ.1)) with
     | Some d => Ok d
     | None => Raise KeyError
     end, σ).
Proof.
  unfold fprop_cache_getitem. py_unfold. simpl.
  by destruct (fprop_cache (as_Model σ.1) !! _).
Qed.

Lemma Model_fprop_layer_eq (x : tensor) (layer : string) (σ : S * world) :
  Model_fprop_layer x layer σ
  = (match fprop_cache (as_Model σ.1) !! (x, train (as_Model σ.1)) with
     | Some d => od_getitem layer d
     | None => Raise KeyError
     end, σ).
Proof.
  unfold Model_fprop_layer. unfold mbind at 1, Py_MBind, py_bind.
  rewrite fprop_cache_getitem_eq.
  by destruct (fprop_cache (as_Model σ.1) !! _).
Qed.

(** C5. On a hit -- the pair (x, current train flag) is a key of
    [fprop_cache] -- [Model.fprop(x)] returns the dictionary stored
    under that key and leaves the object, hence the cache, and the world
    as they were; the answer is the same on every receiver with the same
    cache and flag, whatever its other attributes and overrides. *)
Theorem Model_fprop_cache_hit (x : tensor) (self : S) (w : world) (d : odict tensor) :
  fprop_cache (as_Model self) !! (x, train (as_Model self)) = Some d →
  Model_fprop x (self, w) = (Ok d, (self, w))
  ∧ fprop_cache (as_Model (self_after (Model_fprop x (self, w))))
    = fprop_cache (as_Model self)
  ∧ ∀ (self' : S) (w' : world),
      fprop_cache (as_Model self') = fprop_cache (as_Model self) →
      train (as_Model self') = train (as_Model self) →
      result (Model_fprop x (self', w')) = Ok d.
Proof.
  intros Hhit.
  assert (Hgen : ∀ (s' : S) (w' : world),
             fprop_cache (as_Model s') = fprop_cache (as_Model self) →
             train (as_Model s') = train (as_Model self) →
             Model_fprop x (s', w') = (Ok d, (s', w'))).
  { intros s' w' Hc Ht. unfold Model_fprop.
    unfold mbind at 1, Py_MBind, py_bind, get_self. cbn [fst snd].
    rewrite bool_decide_eq_true_2.
    - rewrite fprop_cache_getitem_eq. cbn [fst]. by rewrite Hc, Ht, Hhit.
    - apply elem_of_dom. rewrite Hc, Ht, Hhit. by eexists. }
  split_and!.
  - by apply Hgen.
  - by rewrite Hgen.
  - intros s' w' Hc Ht. by rewrite Hgen.
Qed.

(** C8. With no entry under (x, current train flag), the base-class
    [fprop_layer] raises [KeyError].  It never writes: whatever the
    state, the receiver and the world come back unchanged.  It returns
    a value exactly when the cache holds, under that key, a dictionary
    that has the layer name. *)
Theorem Model_fprop_layer_miss (x : tensor) (layer : string) (self : S) (w : world) :
  fprop_cache (as_Model self) !! (x, train (as_Model self)) = None →
  Model_fprop_layer x layer (self, w) = (Raise KeyError, (self, w))
  ∧ (∀ σ : S * world, snd (Model_fprop_layer x layer σ) = σ)
  ∧ (∀ σ : S * world,
       (∃ v, result (Model_fprop_layer x layer σ) = Ok v)
       ↔ ∃ d, fprop_cache (as_Model σ.1) !! (x, train (as_Model σ.1)) = Some d
              ∧ is_Some (od_get layer d)).
Proof.
  intros Hmiss. split_and!.
  - rewrite Model_fprop_layer_eq. cbn [fst]. by rewrite Hmiss.
  - intros σ. by rewrite Model_fprop_layer_eq.
  - intros σ. rewrite Model_fprop_layer_eq. unfold result. cbn [fst].
    destruct (fprop_cache (as_Model σ.1) !! _) as [d|]; split.
    + intros [v Hv]. exists d. split; [done|].
      unfold od_getitem in Hv. by destruct (od_get layer d).
    + intros (d' & [= <-] & [v Hv]). exists v.
      unfold od_getitem. by rewrite Hv.
    + by intros [v ?].
    + by intros (d & ? & _).
Qed.

(** [__call__] forwards to the [fprop_probs] of the receiver's class. *)
Lemma Model___call___eq (x : tensor) (σ : S * world) :
  Model___call__ x σ = fprop_probs x σ.
Proof. reflexivity. Qed.
End BaseClassProperties.

Section OrderedDictProperties.
Context {V : Type}.
Implicit Types (d : odict V) (k : string) (v : V).



End OrderedDictProperties.

Section KerasProperties.
Context {tensor : Type} `{Countable tensor}.
Implicit Types (l : layer tensor) (ls : list (layer tensor)) (m : keras_model tensor).

Lemma find_layer_Ok ls nm l :
  find_layer ls nm = Ok l → l ∈ ls ∧ name l = nm.
Proof.
  induction ls as [|l' ls IH]; cbn; [done|].
  case_decide as Hn.
  - intros [= <-]. split; [left|done].
  - intros Hf. destruct (IH Hf). split; [by right|done].
Qed.

(** The name of a layer of the model always resolves, to a layer with
    that name. *)
Lemma find_layer_elem ls l :
  l ∈ ls → ∃ l', find_layer ls (name l) = Ok l' ∧ l' ∈ ls ∧ name l' = name l.
Proof.
  induction ls as [|l0 ls IH]; intros Hin; [by apply elem_of_nil in Hin|].
  cbn. case_decide as Hn.
  - exists l0. split_and!; [done|left|done].
  - apply elem_of_cons in Hin as [->|Hin]; [done|].
    destruct (IH Hin) as (l' & ? & ? & ?). exists l'. split_and!; [done|by right|done].
Qed.

(** When layer names are pairwise distinct, it resolves to that very
    layer. *)
Lemma find_layer_NoDup ls l :
  NoDup (map name ls) → l ∈ ls → find_layer ls (name l) = Ok l.
Proof.
  induction ls as [|l0 ls IH]; intros Hnd Hin; [by apply elem_of_nil in Hin|].
  cbn in *. apply NoDup_cons in Hnd as [Hnin Hnd].
  apply elem_of_cons in Hin as [->|Hin].
  - by rewrite decide_True.
  - rewrite decide_False; [by apply IH|].
    intros Heq. apply Hnin. rewrite Heq. by apply (list_elem_of_fmap_2 name).
Qed.

Lemma softmax_scan_first (pre post : list (layer tensor)) l :
  Forall (λ l', activation_is_softmax (get_config l') = false) pre →
  activation_is_softmax (get_config l) = true →
  softmax_scan (pre ++ l :: post) = Ok (name l).
Proof.
  intros Hpre Hl. induction Hpre as [|l' pre Hl' _ IH]; cbn.
  - by rewrite Hl.
  - by rewrite Hl'.
Qed.

Lemma softmax_split ls :
  (∃ l, l ∈ ls ∧ activation_is_softmax (get_config l) = true) →
  ∃ pre l post,
    ls = pre ++ l :: post
    ∧ Forall (λ l', activation_is_softmax (get_config l') = false) pre
    ∧ activation_is_softmax (get_config l) = true.
Proof.
  induction ls as [|l0 ls IH]; intros (l & Hin & Hl).
  - by apply elem_of_nil in Hin.
  - destruct (activation_is_softmax (get_config l0)) eqn:H0.
    + exists [], l0, ls. by split_and!.
    + apply elem_of_cons in Hin as [->|Hin]; [congruence|].
      destruct IH as (pre & l1 & post & -> & Hpre & Hl1); [by exists l|].
      exists (l0 :: pre), l1, post. split_and!; [done|by constructor|done].
Qed.

Lemma softmax_scan_Ok ls nm :
  softmax_scan ls = Ok nm →
  ∃ l, l ∈ ls ∧ name l = nm ∧ activation_is_softmax (get_config l) = true.
Proof.
  induction ls as [|l0 ls IH]; cbn; [done|].
  destruct (activation_is_softmax (get_config l0)) eqn:H0.
  - intros [= <-]. exists l0. split_and!; [left|done|done].
  - intros Hs. destruct (IH Hs) as (l & ? & ? & ?). exists l.
    split_and!; [by right|done|done].
Qed.

(** Without any softmax activation the scan ends in the explicit
    exception. *)
Lemma softmax_scan_none ls :
  Forall (λ l, activation_is_softmax (get_config l) = false) ls →
  softmax_scan ls = Raise (Exception "No softmax layers found").
Proof. induction 1 as [|l ls Hl _ IH]; cbn; [done|]. by rewrite Hl. Qed.

Lemma softmax_scan_Raise ls e :
  softmax_scan ls = Raise e →
  Forall (λ l, activation_is_softmax (get_config l) = false) ls.
Proof.
  induction ls as [|l0 ls IH]; cbn; [by constructor|].
  destruct (activation_is_softmax (get_config l0)) eqn:H0; [done|].
  intros Hs. constructor; [done|by apply IH].
Qed.
End KerasProperties.

Section WrapperProperties.
Context {tensor : Type} `{Countable tensor}.
Variable rewire : tensor → tensor → tensor → tensor.
Variable xent : tensor → tensor → tensor.
Implicit Types (s : KerasModelWrapper tensor) (w : world) (σ : state tensor).
Implicit Types (m : keras_model tensor) (x : tensor) (layer_name : string).

Lemma fprop_layer_eq x layer_name s w :
  KerasModelWrapper_fprop_layer rewire x layer_name (s, w)
  = match modelw_layer s !! layer_name with
    | Some cached => (Ok (keras_call rewire cached x), (s, w))
    | None =>
        match get_input_at (model (super s)) 0 with
        | Raise e => (Raise e, (s, w))
        | Ok i =>
            match get_layer (model (super s)) layer_name with
            | Raise e => (Raise e, (s, w))
            | Ok l =>
                match output l with
                | Raise e => (Raise e, (s, w))
                | Ok o =>
                    (Ok (Tensor (rewire i o x)),
                     (set_modelw_layer layer_name
                        (KModel (keras_built w) i (Tensor o)) s,
                      World (stdout w) (S (keras_built w))))
                end
            end
        end
    end.
Proof.
  unfold KerasModelWrapper_fprop_layer, keras_models_Model. py_unfold. cbn.
  repeat case_match; done.
Qed.

Lemma get_softmax_name_eq s w :
  KerasModelWrapper__get_softmax_name (s, w)
  = (softmax_scan (layers (model (super s))), (s, w)).
Proof. reflexivity. Qed.

Lemma get_logits_name_eq s w :
  KerasModelWrapper__get_logits_name (s, w)
  = (match softmax_scan (layers (model (super s))) with
     | Raise e => Raise e
     | Ok softmax_name =>
         match get_layer (model (super s)) softmax_name with
         | Raise e => Raise e
         | Ok softmax_layer =>
             match index (inbound_nodes softmax_layer) 0 with
             | Raise e => Raise e
             | Ok node =>
                 match index (inbound_layers node) 0 with
                 | Raise e => Raise e
                 | Ok l => Ok (name l)
                 end
             end
         end
     end, (s, w)).
Proof.
  unfold KerasModelWrapper__get_logits_name.
  unfold mbind at 1, Py_MBind, py_bind. rewrite get_softmax_name_eq.
  py_unfold. cbn. repeat case_match; done.
Qed.

Lemma get_layer_names_eq s w :
  KerasModelWrapper_get_layer_names (s, w)
  = (Ok (map name (layers (model (super s)))), (s, w)).
Proof. reflexivity. Qed.

Lemma comprehension_outputs m (names : list string) σ :
  comprehension (λ name, l ← lift (get_layer m name); lift (output l)) names σ
  = (outputs_of m names, σ).
Proof.
  induction names as [|nm names IH]; [done|].
  cbn [comprehension outputs_of].
  rewrite !bind_eq, lift_eq.
  destruct (get_layer m nm) as [l|e]; [|done].
  rewrite lift_eq. destruct (output l) as [o|e]; [|done].
  rewrite bind_eq, IH.
  by destruct (outputs_of m names).
Qed.

Lemma create_modelw_eq s w :
  KerasModelWrapper__create_modelw (s, w)
  = match get_input_at (model (super s)) 0 with
    | Raise e => (Raise e, (s, w))
    | Ok i =>
        match outputs_of (model (super s)) (map name (layers (model (super s)))) with
        | Raise e => (Raise e, (s, w))
        | Ok outs =>
            (Ok (KModel (keras_built w) i (TensorList outs)),
             (s, World (stdout w) (S (keras_built w))))
        end
    end.
Proof.
  unfold KerasModelWrapper__create_modelw.
  rewrite bind_eq. cbn [get_self fst]. rewrite bind_eq, lift_eq.
  destruct (get_input_at (model (super s)) 0) as [i|e]; [|done].
  rewrite bind_eq, get_layer_names_eq, bind_eq, comprehension_outputs.
  by destruct (outputs_of _ _).
Qed.

Lemma fprop_eq x s w :
  KerasModelWrapper_fprop rewire x (s, w)
  = match modelw s with
    | Some km =>
        (match py_zip (map name (layers (model (super s)))) (keras_call rewire km x) with
         | Ok pairs => Ok (OrderedDict pairs)
         | Raise e => Raise e
         end, (s, w))
    | None =>
        match KerasModelWrapper__create_modelw (s, w) with
        | (Raise e, σ') => (Raise e, σ')
        | (Ok km, σ') =>
            (match py_zip (map name (layers (model (super s))))
                          (keras_call rewire km x) with
             | Ok pairs => Ok (OrderedDict pairs)
             | Raise e => Raise e
             end, (set_modelw km σ'.1, σ'.2))
        end
    end.
Proof.
  unfold KerasModelWrapper_fprop.
  rewrite bind_eq. cbn [get_self fst].
  destruct (modelw s) as [km|] eqn:Hmw.
  - py_unfold. rewrite get_layer_names_eq. cbn. rewrite Hmw.
    by destruct (py_zip _ _).
  - rewrite !bind_eq, create_modelw_eq.
    destruct (get_input_at _ _) as [i|e]; [|done].
    destruct (outputs_of _ _) as [outs|e]; [|done].
    py_unfold. rewrite get_layer_names_eq. unfold set_modelw.
    cbn [fst snd modelw]. by destruct (py_zip _ _).
Qed.

Lemma set_train_eq (t : bool) s w :
  KerasModelWrapper_set_train rewire t (s, w)
  = (Ok tt,
     (MkKerasModelWrapper (MkModel (model (super s)) (fprop_cache (super s)) t)
                          (modelw_layer s) (modelw s),
      World (stdout w ++ ["Set the model to " +:+ (if t then "Training" else "Inference")])
            (keras_built w))).
Proof. reflexivity. Qed.

Lemma discard_eq {A} (f : Py (KerasModelWrapper tensor) A) σ :
  discard f σ = (match fst (f σ) with Ok _ => Ok tt | Raise e => Raise e end,
                 snd (f σ)).
Proof. unfold discard. py_unfold. by destruct (f σ) as [[a|e] σ']. Qed.

(** *** Monotone evolution and soundness of the caches *)

#[local] Instance evolves_preorder : PreOrder (@evolves tensor _ _).
Proof.
  split.
  - intros σ. by repeat split.
  - intros σ1 σ2 σ3 (Hm1 & Hc1 & Hl1 & Hw1 & Hb1) (Hm2 & Hc2 & Hl2 & Hw2 & Hb2).
    repeat split; [congruence|congruence|eauto|eauto|lia].
Qed.

Lemma well_behaved_unchanged {A} (f : Py (KerasModelWrapper tensor) A) :
  (∀ σ, snd (f σ) = σ) → well_behaved f.
Proof. intros Hf σ. rewrite Hf. split; [reflexivity|done]. Qed.

Lemma well_behaved_bind {A B} (f : Py (KerasModelWrapper tensor) A)
    (k : A → Py (KerasModelWrapper tensor) B) :
  well_behaved f → (∀ a, well_behaved (k a)) → well_behaved (f ≫= k).
Proof.
  intros Hf Hk σ. rewrite bind_eq.
  destruct (Hf σ) as [He Hi]. destruct (f σ) as [[a|e] σ']; [|done].
  destruct (Hk a σ') as [He' Hi']. split; [by etrans|]. intros m Hm. eauto.
Qed.

Lemma fprop_layer_well_behaved x layer_name :
  well_behaved (KerasModelWrapper_fprop_layer rewire x layer_name).
Proof.
  intros [s w]. rewrite fprop_layer_eq.
  destruct (modelw_layer s !! layer_name) as [km|] eqn:Hl; [by split|].
  destruct (get_input_at _ 0) as [i|e] eqn:Hi; [|by split].
  destruct (get_layer _ layer_name) as [l|e] eqn:Hg; [|by split].
  destruct (output l) as [o|e] eqn:Ho; [|by split].
  split.
  - repeat split; proj_simpl; [|done|lia].
    intros nm km Hnm. rewrite lookup_insert_ne; [done|congruence].
  - intros m (Hm & Hls & Hw). split_and!; proj_simpl; [done| |done].
    intros nm km. rewrite lookup_insert. case_decide as Hd.
    + intros [= <-]. subst. exists i, l, o. by split_and!.
    + apply Hls.
Qed.

Lemma create_modelw_well_behaved :
  well_behaved (KerasModelWrapper__create_modelw (tensor:=tensor)).
Proof.
  intros [s w]. rewrite create_modelw_eq.
  destruct (get_input_at _ 0) as [i|e]; [|by split].
  destruct (outputs_of _ _) as [outs|e]; [|by split].
  split; [|done]. repeat split; proj_simpl; [done|done|lia].
Qed.

Lemma fprop_well_behaved x : well_behaved (KerasModelWrapper_fprop rewire x).
Proof.
  intros [s w]. rewrite fprop_eq, create_modelw_eq.
  destruct (modelw s) as [km|] eqn:Hmw; [by split|].
  destruct (get_input_at _ 0) as [i|e] eqn:Hi; [|by split].
  destruct (outputs_of _ _) as [outs|e] eqn:Ho; [|by split].
  split.
  - repeat split; proj_simpl; [done|congruence|lia].
  - intros m (Hm & Hls & Hw). split_and!; proj_simpl; [done|done|].
    intros km [= <-]. subst. exists i, outs. by split_and!.
Qed.

Lemma set_train_well_behaved (t : bool) :
  well_behaved (KerasModelWrapper_set_train rewire t).
Proof. intros [s w]. rewrite set_train_eq. split; [by repeat split|done]. Qed.

Lemma discard_well_behaved {A} (f : Py (KerasModelWrapper tensor) A) :
  well_behaved f → well_behaved (discard f).
Proof. intros Hf σ. rewrite discard_eq. apply Hf. Qed.

Lemma invoke_well_behaved (c : method_call tensor) : well_behaved (invoke rewire xent c).
Proof.
  destruct c; cbn [invoke]; try apply discard_well_behaved.
  - apply set_train_well_behaved.
  - apply well_behaved_bind; [by apply well_behaved_unchanged|].
    intros nm. apply fprop_layer_well_behaved.
  - apply fprop_layer_well_behaved.
  - apply well_behaved_bind; [|intros nm; apply fprop_layer_well_behaved].
    apply well_behaved_unchanged. intros [s w]. by rewrite get_logits_name_eq.
  - apply well_behaved_bind; [by apply well_behaved_unchanged|].
    intros nm. apply fprop_layer_well_behaved.
  - by apply well_behaved_unchanged.
  - apply fprop_well_behaved.
  - by apply well_behaved_unchanged.
  - by apply well_behaved_unchanged.
  - apply well_behaved_unchanged. intros [s w]. by rewrite get_logits_name_eq.
  - apply create_modelw_well_behaved.
Qed.

Lemma rtc_step_evolves σ σ' :
  rtc (step rewire xent) σ σ' →
  evolves σ σ' ∧ ∀ m, wrapper_inv m σ.1 → wrapper_inv m σ'.1.
Proof.
  induction 1 as [σ|σ1 σ2 σ3 [c <-] _ [IHe IHi]].
  - split; [reflexivity|done].
  - destruct (invoke_well_behaved c σ1) as [He Hi].
    split; [by etrans|]. intros m Hm. eauto.
Qed.

Lemma init_inv m : wrapper_inv m (KerasModelWrapper___init__ m).
Proof.
  split_and!; [done| |done]. intros nm km.
  unfold KerasModelWrapper___init__. cbn [modelw_layer]. by rewrite lookup_empty.
Qed.

Lemma reachable_inv m σ :
  reachable rewire xent m σ → wrapper_inv m σ.1.
Proof. intros [w Hrtc]. apply rtc_step_evolves in Hrtc as [_ Hi]. apply Hi, init_inv. Qed.

(** *** Blindness to the train flag *)

Lemma relabel_id σ : relabel (train (super σ.1)) (stdout σ.2) σ = σ.
Proof. by destruct σ as [[[m c t] ml mw] [out n]]. Qed.

Lemma train_blind_unchanged {A} (g : keras_model tensor → outcome A)
    (f : Py (KerasModelWrapper tensor) A) :
  (∀ s w, f (s, w) = (g (model (super s)), (s, w))) → train_blind f.
Proof. intros Hf t out [s w]. unfold relabel. by rewrite !Hf. Qed.

Lemma train_blind_bind {A B} (f : Py (KerasModelWrapper tensor) A)
    (k : A → Py (KerasModelWrapper tensor) B) :
  train_blind f → (∀ a, train_blind (k a)) → train_blind (f ≫= k).
Proof.
  intros Hf Hk t out σ. rewrite !bind_eq, Hf.
  destruct (f σ) as [[a|e] σ']; [|done]. apply Hk.
Qed.

Lemma fprop_layer_train_blind x layer_name :
  train_blind (KerasModelWrapper_fprop_layer rewire x layer_name).
Proof.
  intros t out [s w]. unfold relabel at 1. rewrite !fprop_layer_eq. proj_simpl.
  destruct (modelw_layer s !! layer_name) as [km|]; [done|].
  destruct (get_input_at _ 0) as [i|e]; [|done].
  destruct (get_layer _ layer_name) as [l|e]; [|done].
  by destruct (output l) as [o|e].
Qed.

Lemma get_softmax_name_train_blind :
  train_blind (KerasModelWrapper__get_softmax_name (tensor:=tensor)).
Proof. by apply (train_blind_unchanged (λ m, softmax_scan (layers m))). Qed.

Lemma get_logits_name_train_blind :
  train_blind (KerasModelWrapper__get_logits_name (tensor:=tensor)).
Proof.
  intros t out [s w]. unfold relabel at 1. by rewrite !get_logits_name_eq.
Qed.

Lemma create_modelw_train_blind :
  train_blind (KerasModelWrapper__create_modelw (tensor:=tensor)).
Proof.
  intros t out [s w]. unfold relabel at 1. rewrite !create_modelw_eq. proj_simpl.
  destruct (get_input_at _ 0) as [i|e]; [|done].
  by destruct (outputs_of _ _) as [outs|e].
Qed.

Lemma fprop_train_blind x : train_blind (KerasModelWrapper_fprop rewire x).
Proof.
  intros t out [s w]. unfold relabel at 1.
  rewrite !fprop_eq, !create_modelw_eq. proj_simpl.
  destruct (modelw s) as [km|] eqn:Hmw; proj_simpl; rewrite ?Hmw; [done|].
  destruct (get_input_at _ 0) as [i|e]; proj_simpl; rewrite ?Hmw; [|done].
  destruct (outputs_of _ _) as [outs|e]; proj_simpl; rewrite ?Hmw; done.
Qed.

Lemma discard_train_blind {A} (f : Py (KerasModelWrapper tensor) A) :
  train_blind f → train_blind (discard f).
Proof. intros Hf t out σ. by rewrite !discard_eq, Hf. Qed.

Lemma invoke_train_blind (c : method_call tensor) :
  (∀ t, c ≠ call_set_train t) → train_blind (invoke rewire xent c).
Proof.
  intros Hc. destruct c as [t0|x|x nm|x|x| |x|x y logits| | |];
    cbn [invoke]; try apply discard_train_blind.
  - by destruct (Hc t0).
  - apply train_blind_bind; [apply get_softmax_name_train_blind|].
    intros nm. apply fprop_layer_train_blind.
  - apply fprop_layer_train_blind.
  - apply train_blind_bind; [apply get_logits_name_train_blind|].
    intros nm. apply fprop_layer_train_blind.
  - apply train_blind_bind; [apply get_softmax_name_train_blind|].
    intros nm. apply fprop_layer_train_blind.
  - by apply (train_blind_unchanged (λ m, Ok (map name (layers m)))).
  - apply fprop_train_blind.
  - by apply (train_blind_unchanged (λ _, Ok (xent logits y))).
  - apply get_softmax_name_train_blind.
  - apply get_logits_name_train_blind.
  - apply create_modelw_train_blind.
Qed.

Lemma invoke_relabel (c1 c2 : method_call tensor) (t : bool) (out : list string) σ :
  (c1 = c2 ∨ ∃ t1 t2, c1 = call_set_train t1 ∧ c2 = call_set_train t2) →
  ∃ t' out', snd (invoke rewire xent c2 (relabel t out σ))
             = relabel t' out' (snd (invoke rewire xent c1 σ)).
Proof.
  assert (Hset : ∀ t1 t2, ∃ t' out',
             snd (invoke rewire xent (call_set_train t2) (relabel t out σ))
             = relabel t' out' (snd (invoke rewire xent (call_set_train t1) σ))).
  { intros t1 t2. destruct σ as [s w]. cbn [invoke]. unfold relabel at 1.
    rewrite !set_train_eq. by eexists _, _. }
  intros [<-|(t1 & t2 & -> & ->)]; [|apply Hset].
  destruct c1 as [t0|x|x nm|x|x| |x|x y logits| | |]; [apply Hset|..];
    exists t, out; by rewrite invoke_train_blind.
Qed.

Lemma run_relabel (cs1 cs2 : list (method_call tensor)) :
  same_but_set_train cs1 cs2 →
  ∀ t out σ, ∃ t' out',
    run rewire xent cs2 (relabel t out σ) = relabel t' out' (run rewire xent cs1 σ).
Proof.
  induction 1 as [|c1 c2 cs1 cs2 Hc _ IH]; intros t out σ; cbn [run].
  - by exists t, out.
  - destruct (invoke_relabel c1 c2 t out σ Hc) as (t' & out' & ->). apply IH.
Qed.

Lemma rtc_step_run (cs : list (method_call tensor)) σ :
  rtc (step rewire xent) σ (run rewire xent cs σ).
Proof.
  revert σ. induction cs as [|c cs IH]; intros σ; cbn [run]; [done|].
  eapply rtc_l; [by exists c|apply IH].
Qed.

Lemma reachable_run m w (cs : list (method_call tensor)) :
  reachable rewire xent m (run rewire xent cs (KerasModelWrapper___init__ m, w)).
Proof. exists w. apply rtc_step_run. Qed.

(** *** What the cached models compute *)

Lemma get_layer_well_named m l :
  well_named m → l ∈ get_layer_scope m → get_layer m (name l) = Ok l.
Proof.
  intros [Hnd Hne] Hl. unfold get_layer. rewrite decide_False.
  - by apply find_layer_NoDup.
  - intros Heq. apply Hne. rewrite <-Heq. by apply (list_elem_of_fmap_2 name).
Qed.

Lemma get_layer_listed m l :
  well_named m → l ∈ layers m → get_layer m (name l) = Ok l.
Proof.
  intros Hwn Hl. apply get_layer_well_named; [done|].
  apply elem_of_app. by right.
Qed.




Lemma keras_call_eta (km : keras_Model tensor) x :
  keras_call rewire km x
  = keras_call rewire (KModel 0 (km_input km) (km_outputs km)) x.
Proof. by destruct km. Qed.

(** What [zip] gets from a model built from a list of outputs: a list to
    iterate, unless there was exactly one output. *)
Lemma py_zip_keras_call (names : list string) (id : nat) i (outs : list tensor) x :
  py_zip names (keras_call rewire (KModel id i (TensorList outs)) x)
  = if decide (length outs = 1) then Raise TypeError
    else Ok (zip names (map (λ o, rewire i o x) outs)).
Proof. by destruct outs as [|o [|o' outs]]. Qed.



(** On a sound wrapper, [fprop_layer] returns the output of the layer the
    name resolves to, recomputed on [x], whether or not it was cached. *)
Lemma fprop_layer_result m s w x layer_name i l o :
  wrapper_inv m s → get_input_at m 0 = Ok i → get_layer m layer_name = Ok l →
  output l = Ok o →
  result (KerasModelWrapper_fprop_layer rewire x layer_name (s, w))
  = Ok (Tensor (rewire i o x)).
Proof.
  intros (Hm & Hls & _) Hi Hl Ho. rewrite fprop_layer_eq. subst m.
  destruct (modelw_layer s !! layer_name) as [km|] eqn:Hc.
  - destruct (Hls _ _ Hc) as (i' & l' & o' & Hi' & Hl' & Ho' & Hin & Hout).
    unfold result, keras_call. cbn [fst]. rewrite Hout, Hin. congruence.
  - by rewrite Hi, Hl, Ho.
Qed.

(** *** Main results about [KerasModelWrapper] *)


(** C2, as amended.  When some layer of the model has activation
    'softmax', [_get_softmax_name] returns the name of the first such
    layer in [model.layers], and changes nothing. *)
Theorem get_softmax_name_first s w :
  (∃ l, l ∈ layers (model (super s)) ∧ activation_is_softmax (get_config l) = true) →
  ∃ pre l post,
    layers (model (super s)) = pre ++ l :: post
    ∧ Forall (λ l', activation_is_softmax (get_config l') = false) pre
    ∧ activation_is_softmax (get_config l) = true
    ∧ KerasModelWrapper__get_softmax_name (s, w) = (Ok (name l), (s, w)).
Proof.
  intros Hex. destruct (softmax_split _ Hex) as (pre & l & post & Hls & Hpre & Hl).
  exists pre, l, post. split_and!; [done..|].
  rewrite get_softmax_name_eq, Hls. by rewrite softmax_scan_first.
Qed.

(** C3. Once [fprop_layer(x, L)] has returned, then after any further
    history the entry of [modelw_layer] for [L] is still the model that
    was there when it returned, and [fprop_layer(x', L)] returns that
    model applied to [x'] and leaves the wrapper and the world -- in
    particular the count of built Keras models -- as they were. *)
Theorem fprop_layer_cache_stable x layer_name σ0 r σ1 σ2 x' :
  KerasModelWrapper_fprop_layer rewire x layer_name σ0 = (Ok r, σ1) →
  rtc (step rewire xent) σ1 σ2 →
  ∃ km, modelw_layer σ1.1 !! layer_name = Some km
        ∧ modelw_layer σ2.1 !! layer_name = Some km
        ∧ KerasModelWrapper_fprop_layer rewire x' layer_name σ2
          = (Ok (keras_call rewire km x'), σ2)
        ∧ keras_built
            (world_after (KerasModelWrapper_fprop_layer rewire x' layer_name σ2))
          = keras_built σ2.2.
Proof.
  intros Hcall Hrtc.
  assert (∃ km, modelw_layer σ1.1 !! layer_name = Some km) as [km Hkm].
  { destruct σ0 as [s w]. rewrite fprop_layer_eq in Hcall.
    destruct (modelw_layer s !! layer_name) as [km|] eqn:Hc.
    - injection Hcall as _ <-. by exists km.
    - destruct (get_input_at _ 0) as [i|e]; [|done].
      destruct (get_layer _ layer_name) as [l|e]; [|done].
      destruct (output l) as [o|e]; [|done].
      injection Hcall as _ <-. eexists. proj_simpl. apply lookup_insert_eq. }
  apply rtc_step_evolves in Hrtc as [(_ & _ & Hmono & _) _].
  pose proof (Hmono _ _ Hkm) as Hkm2.
  assert (Hhit : KerasModelWrapper_fprop_layer rewire x' layer_name σ2
                 = (Ok (keras_call rewire km x'), σ2)).
  { destruct σ2 as [s2 w2]. rewrite fprop_layer_eq. cbn [fst] in Hkm2.
    by rewrite Hkm2. }
  exists km. split_and!; [done..|]. by rewrite Hhit.
Qed.

(** C4. A call of [fprop] on a wrapper whose [modelw] is [None], if it
    returns, has built exactly one Keras model, the one
    [_create_modelw] returns, and stored it in [modelw].  After any
    further history [modelw] is still that object; [fprop(x')] then
    builds nothing, changes nothing, and returns the dictionary that
    [fprop(x')] returns when [modelw] is forgotten and constructed
    anew. *)
Theorem fprop_builds_modelw_once x s w d σ1 σ2 x' :
  modelw s = None →
  KerasModelWrapper_fprop rewire x (s, w) = (Ok d, σ1) →
  rtc (step rewire xent) σ1 σ2 →
  keras_built σ1.2 = S (keras_built w)
  ∧ ∃ km, result (KerasModelWrapper__create_modelw (s, w)) = Ok km
          ∧ modelw σ1.1 = Some km
          ∧ modelw σ2.1 = Some km
          ∧ ∃ d', KerasModelWrapper_fprop rewire x' σ2 = (Ok d', σ2)
                  ∧ result (KerasModelWrapper_fprop rewire x' (forget_modelw σ2)) = Ok d'
                  ∧ keras_built
                      (world_after (KerasModelWrapper_fprop rewire x' (forget_modelw σ2)))
                    = S (keras_built σ2.2).
Proof.
  intros Hnone Hcall Hrtc.
  rewrite fprop_eq, Hnone, create_modelw_eq in Hcall.
  destruct (get_input_at _ 0) as [i|e] eqn:Hi; [|done].
  destruct (outputs_of _ _) as [outs|e] eqn:Ho; [|done].
  rewrite py_zip_keras_call in Hcall.
  destruct (decide (length outs = 1)) as [|Hlen]; [done|].
  injection Hcall as _ <-. proj_simpl.
  split; [done|].
  exists (KModel (keras_built w) i (TensorList outs)).
  apply rtc_step_evolves in Hrtc as [(Hm & _ & _ & Hmw & _) _]. proj_simpl.
  specialize (Hmw _ eq_refl).
  split_and!; [|done|done|].
  { rewrite create_modelw_eq, Hi, Ho. done. }
  destruct σ2 as [s2 w2]. proj_simpl.
  exists (OrderedDict (zip (map name (layers (model (super s))))
                           (map (λ o, rewire i o x') outs))).
  split_and!.
  - by rewrite fprop_eq, Hmw, Hm, py_zip_keras_call, decide_False.
  - rewrite fprop_eq, create_modelw_eq. proj_simpl. rewrite Hm, Hi, Ho.
    by rewrite py_zip_keras_call, decide_False.
  - rewrite fprop_eq, create_modelw_eq. proj_simpl. rewrite Hm, Hi, Ho.
    by rewrite py_zip_keras_call, decide_False.
Qed.




(** C9. Two histories that differ only in the arguments passed to
    [set_train] lead to states in which [fprop_layer(x, L)] has the same
    outcome and leaves the same per-layer cache. *)
Theorem fprop_layer_ignores_train (cs1 cs2 : list (method_call tensor)) σ x layer_name :
  same_but_set_train cs1 cs2 →
  result (KerasModelWrapper_fprop_layer rewire x layer_name (run rewire xent cs1 σ))
  = result (KerasModelWrapper_fprop_layer rewire x layer_name (run rewire xent cs2 σ))
  ∧ modelw_layer
      (self_after (KerasModelWrapper_fprop_layer rewire x layer_name
                     (run rewire xent cs1 σ)))
    = modelw_layer
        (self_after (KerasModelWrapper_fprop_layer rewire x layer_name
                       (run rewire xent cs2 σ))).
Proof.
  intros Hsame.
  destruct (run_relabel _ _ Hsame (train (super σ.1)) (stdout σ.2) σ)
    as (t' & out' & Hrun).
  rewrite relabel_id in Hrun. rewrite Hrun, fprop_layer_train_blind.
  unfold result, self_after. by proj_simpl.
Qed.

(** C10. [set_train(t)] returns normally, sets [train] to [t], and keeps
    [model] and [fprop_cache] -- on an object of the base class, and on
    a [KerasModelWrapper], where it also keeps [modelw_layer] and
    [modelw]. *)
Theorem set_train_frame (t : bool) :
  (∀ (M : Type) (self : Model tensor M) w,
      result (Model_set_train t (self, w)) = Ok tt
      ∧ train (self_after (Model_set_train t (self, w))) = t
      ∧ model (self_after (Model_set_train t (self, w))) = model self
      ∧ fprop_cache (self_after (Model_set_train t (self, w))) = fprop_cache self)
  ∧ (∀ s w,
       result (KerasModelWrapper_set_train rewire t (s, w)) = Ok tt
       ∧ train (super (self_after (KerasModelWrapper_set_train rewire t (s, w)))) = t
       ∧ model (super (self_after (KerasModelWrapper_set_train rewire t (s, w))))
         = model (super s)
       ∧ fprop_cache (super (self_after (KerasModelWrapper_set_train rewire t (s, w))))
         = fprop_cache (super s)
       ∧ modelw_layer (self_after (KerasModelWrapper_set_train rewire t (s, w)))
         = modelw_layer s
       ∧ modelw (self_after (KerasModelWrapper_set_train rewire t (s, w))) = modelw s).
Proof. by split_and!. Qed.
End WrapperProperties.

(** * Further properties of the base class *)

Section BaseClassExtras.
Context {tensor : Type} `{Countable tensor}.
Context {M S : Type} `{!ModelClass tensor M S}.

(** Past the cache test, every path of [Model.fprop] ends in a [raise]. *)
Lemma Model_fprop_Ok_hit (x : tensor) (σ : S * world) (d : odict tensor) :
  result (Model_fprop x σ) = Ok d →
  fprop_cache (as_Model σ.1) !! (x, train (as_Model σ.1)) = Some d
  ∧ Model_fprop x σ = (Ok d, σ).
Proof.
  unfold Model_fprop. rewrite bind_eq. cbn [get_self fst].
  case_bool_decide as Hdom.
  - rewrite fprop_cache_getitem_eq.
    apply elem_of_dom in Hdom as [d' Hd']. rewrite Hd'. by intros [= ->].
  - rewrite bind_eq. destruct (get_layer_names σ) as [[names|e] σ1]; [|done].
    rewrite bind_eq. destruct (comprehension _ names σ1) as [[checks|e] σ2]; [|done].
    rewrite bind_eq. by destruct (forallb id checks).
Qed.

(** X1. Whatever class derives from [Model] and however it overrides
    [get_layer_names], the base-class [fprop] returns a value only on a
    cache hit: the value is the stored dictionary and nothing has changed.
    On a miss it always raises. *)
Theorem Model_fprop_returns_only_hits (x : tensor) (σ : S * world) (d : odict tensor) :
  result (Model_fprop x σ) = Ok d →
  fprop_cache (as_Model σ.1) !! (x, train (as_Model σ.1)) = Some d
  ∧ snd (Model_fprop x σ) = σ.
Proof.
  intros Hok. destruct (Model_fprop_Ok_hit x σ d Hok) as [Hhit Heq].
  split; [done|]. by rewrite Heq.
Qed.

(** X2. The two base-class accessors agree: when [fprop(x)] returns a
    dictionary, [fprop_layer(x, layer)] is the lookup of [layer] in that
    dictionary -- its value, or [KeyError] -- and changes nothing. *)
Theorem Model_fprop_layer_reads_fprop (x : tensor) (layer : string)
    (σ : S * world) (d : odict tensor) :
  result (Model_fprop x σ) = Ok d →
  Model_fprop_layer x layer σ = (od_getitem layer d, σ).
Proof.
  intros Hok. destruct (Model_fprop_Ok_hit x σ d Hok) as [Hhit _].
  by rewrite Model_fprop_layer_eq, Hhit.
Qed.
End BaseClassExtras.

(** * Further properties of [KerasModelWrapper] *)

Section WrapperExtras.
Context {tensor : Type} `{Countable tensor}.
Variable rewire : tensor → tensor → tensor → tensor.
Variable xent : tensor → tensor → tensor.
Implicit Types (s : KerasModelWrapper tensor) (w : world) (σ : state tensor).
Implicit Types (m : keras_model tensor) (x : tensor) (layer_name : string).
Implicit Types (l : layer tensor) (ls : list (layer tensor)).

(** *** Lookups that fail *)

Lemma find_layer_Raise ls nm e :
  find_layer ls nm = Raise e →
  e = ValueError ("No such layer: " +:+ nm) ∧ nm ∉ map name ls.
Proof.
  induction ls as [|l ls IH]; cbn.
  - intros [= <-]. split; [done|]. apply not_elem_of_nil.
  - case_decide as Hn; [done|]. intros Hf. destruct (IH Hf) as [-> Hnin].
    split; [done|]. apply not_elem_of_cons. by split.
Qed.

Lemma find_layer_Ok_name ls nm l :
  find_layer ls nm = Ok l → nm ∈ map name ls.
Proof.
  intros Hf. destruct (find_layer_Ok _ _ _ Hf) as [Hin <-].
  by apply (list_elem_of_fmap_2 name).
Qed.

Lemma find_layer_absent ls nm :
  nm ∉ map name ls → find_layer ls nm = Raise (ValueError ("No such layer: " +:+ nm)).
Proof.
  induction ls as [|l ls IH]; cbn; [done|]. intros Hnin.
  apply not_elem_of_cons in Hnin as [Hne Hnin]. rewrite decide_False by done.
  by apply IH.
Qed.

Lemma get_layer_Ok_name m nm l :
  get_layer m nm = Ok l → nm ∈ map name (get_layer_scope m).
Proof.
  unfold get_layer. case_decide; [done|]. apply find_layer_Ok_name.
Qed.

Lemma get_layer_absent m nm :
  nm ∉ map name (get_layer_scope m) → ∃ msg, get_layer m nm = Raise (ValueError msg).
Proof.
  intros Hnin. unfold get_layer. case_decide; [by eexists|].
  rewrite find_layer_absent by done. by eexists.
Qed.

(** X3. [_get_softmax_name] never changes anything.  It raises exactly
    when no layer of the model has activation 'softmax', and then with
    [Exception("No softmax layers found")]; a name it returns is the name
    of a layer of the model whose activation is softmax. *)
Theorem get_softmax_name_raises_iff s w :
  snd (KerasModelWrapper__get_softmax_name (s, w)) = (s, w)
  ∧ (result (KerasModelWrapper__get_softmax_name (s, w))
       = Raise (Exception "No softmax layers found")
     ↔ Forall (λ l, activation_is_softmax (get_config l) = false)
              (layers (model (super s))))
  ∧ (∀ e, result (KerasModelWrapper__get_softmax_name (s, w)) = Raise e →
          e = Exception "No softmax layers found")
  ∧ (∀ nm, result (KerasModelWrapper__get_softmax_name (s, w)) = Ok nm →
           ∃ l, l ∈ layers (model (super s)) ∧ name l = nm
                ∧ activation_is_softmax (get_config l) = true).
Proof.
  rewrite get_softmax_name_eq. unfold result. cbn [fst snd].
  split_and!; [done| | |].
  - split; [apply softmax_scan_Raise|apply softmax_scan_none].
  - intros e He. pose proof (softmax_scan_Raise _ _ He) as Hall.
    rewrite (softmax_scan_none _ Hall) in He. by injection He as <-.
  - apply softmax_scan_Ok.
Qed.

(** X4. For a name that is not cached, [fprop_layer(x, L)] raises the
    error of [get_input_at(0)]; with an input, the error of
    [get_layer(L)]; with the layer found, the error of its [output]; and
    in each of these cases the wrapper and the world stay as they were:
    nothing is built and nothing is cached. *)
Theorem fprop_layer_failure x layer_name s w :
  modelw_layer s !! layer_name = None →
  (∀ e, get_input_at (model (super s)) 0 = Raise e →
        KerasModelWrapper_fprop_layer rewire x layer_name (s, w) = (Raise e, (s, w)))
  ∧ (∀ i e, get_input_at (model (super s)) 0 = Ok i →
            get_layer (model (super s)) layer_name = Raise e →
            KerasModelWrapper_fprop_layer rewire x layer_name (s, w) = (Raise e, (s, w)))
  ∧ (∀ i l e, get_input_at (model (super s)) 0 = Ok i →
              get_layer (model (super s)) layer_name = Ok l →
              output l = Raise e →
              KerasModelWrapper_fprop_layer rewire x layer_name (s, w)
              = (Raise e, (s, w))).
Proof.
  intros Hmiss. rewrite fprop_layer_eq, Hmiss. split_and!.
  - by intros e ->.
  - by intros i e -> ->.
  - by intros i l e -> -> ->.
Qed.

(** X5. On a wrapper of [m], a name that [get_layer] finds no layer for
    is never served: [fprop_layer] raises for it and leaves everything as
    it was, whatever was called before. *)
Theorem fprop_layer_unknown_name m σ x layer_name :
  reachable rewire xent m σ →
  layer_name ∉ map name (get_layer_scope m) →
  ∃ e, KerasModelWrapper_fprop_layer rewire x layer_name σ = (Raise e, σ).
Proof.
  intros Hreach Hnin. pose proof (reachable_inv _ _ _ _ Hreach) as (Hm & Hls & _).
  destruct σ as [s w]. cbn [fst] in *. subst m. rewrite fprop_layer_eq.
  destruct (get_layer_absent _ _ Hnin) as [msg Hraise].
  destruct (modelw_layer s !! layer_name) as [km|] eqn:Hc.
  - destruct (Hls _ _ Hc) as (i & l & o & _ & Hl & _). congruence.
  - destruct (get_input_at _ 0) as [i|e]; [|by eexists].
    rewrite Hraise. by eexists.
Qed.

(** X6. A [fprop_layer(x, L)] call that returns touches one thing at
    most: the entry of [modelw_layer] for [L], which is set afterwards.
    The attributes of [Model], [modelw], the output log and every other
    entry stay, and one Keras model is built if [L] was not cached, none
    if it was. *)
Theorem fprop_layer_frame x layer_name s w r σ' :
  KerasModelWrapper_fprop_layer rewire x layer_name (s, w) = (Ok r, σ') →
  super σ'.1 = super s
  ∧ modelw σ'.1 = modelw s
  ∧ stdout σ'.2 = stdout w
  ∧ is_Some (modelw_layer σ'.1 !! layer_name)
  ∧ (∀ other, other ≠ layer_name →
              modelw_layer σ'.1 !! other = modelw_layer s !! other)
  ∧ keras_built σ'.2
    = keras_built w + match modelw_layer s !! layer_name with
                      | Some _ => 0
                      | None => 1
                      end.
Proof.
  rewrite fprop_layer_eq.
  destruct (modelw_layer s !! layer_name) as [km|] eqn:Hc.
  - intros [= _ <-]. cbn [fst snd]. split_and!; [done..| |done|lia]. by rewrite Hc.
  - destruct (get_input_at _ 0) as [i|e]; [|done].
    destruct (get_layer _ layer_name) as [l|e]; [|done].
    destruct (output l) as [o|e]; [|done].
    intros [= _ <-]. proj_simpl. split_and!; [done..| | |lia].
    + rewrite lookup_insert_eq. by eexists.
    + intros other Hne. by rewrite lookup_insert_ne.
Qed.


(** X8. On a model without any softmax activation, [fprop_logits],
    [fprop_probs] and the call syntax all raise
    [Exception("No softmax layers found")] and change nothing: no model is
    built and nothing is cached. *)
Theorem no_softmax_raises x s w :
  Forall (λ l, activation_is_softmax (get_config l) = false)
         (layers (model (super s))) →
  KerasModelWrapper_fprop_logits rewire x (s, w)
  = (Raise (Exception "No softmax layers found"), (s, w))
  ∧ KerasModelWrapper_fprop_probs rewire x (s, w)
    = (Raise (Exception "No softmax layers found"), (s, w))
  ∧ KerasModelWrapper___call__ rewire x (s, w)
    = (Raise (Exception "No softmax layers found"), (s, w)).
Proof.
  intros Hall.
  assert (Hp : KerasModelWrapper_fprop_probs rewire x (s, w)
               = (Raise (Exception "No softmax layers found"), (s, w))).
  { unfold KerasModelWrapper_fprop_probs.
    by rewrite bind_eq, get_softmax_name_eq, softmax_scan_none. }
  split_and!; [|done|done].
  unfold KerasModelWrapper_fprop_logits.
  by rewrite bind_eq, get_logits_name_eq, softmax_scan_none.
Qed.

(** X9. When the layer [_get_softmax_name] locates has no inbound node,
    or its first inbound node has no inbound layer, [fprop_logits] raises
    [IndexError] and changes nothing. *)
Theorem fprop_logits_no_predecessor x s w softmax_name softmax_layer :
  result (KerasModelWrapper__get_softmax_name (s, w)) = Ok softmax_name →
  get_layer (model (super s)) softmax_name = Ok softmax_layer →
  (inbound_nodes softmax_layer = []
   ∨ ∃ nd nds, inbound_nodes softmax_layer = nd :: nds ∧ inbound_layers nd = []) →
  KerasModelWrapper_fprop_logits rewire x (s, w) = (Raise IndexError, (s, w)).
Proof.
  rewrite get_softmax_name_eq. unfold result. cbn [fst]. intros Hsm Hsl Hno.
  unfold KerasModelWrapper_fprop_logits.
  rewrite bind_eq, get_logits_name_eq, Hsm, Hsl.
  destruct Hno as [->|(nd & nds & -> & Hnd)]; [done|].
  cbn. by rewrite Hnd.
Qed.

(** *** What [fprop] returns, and when *)

Lemma outputs_of_Forall2 m (names : list string) (outs : list tensor) :
  outputs_of m names = Ok outs →
  Forall2 (λ nm o, ∃ l, get_layer m nm = Ok l ∧ output l = Ok o) names outs.
Proof.
  revert outs. induction names as [|nm names IH]; intros outs; cbn [outputs_of].
  - intros [= <-]. constructor.
  - destruct (get_layer m nm) as [l|e] eqn:Hl; [|done].
    destruct (output l) as [o|e] eqn:Ho; [|done].
    destruct (outputs_of m names) as [os|e]; [|done].
    intros [= <-]. constructor; [by exists l|by apply IH].
Qed.

Lemma od_get_setitem {V} (k k' : string) (v : V) (d : odict V) :
  od_get k (od_setitem k' v d) = if decide (k' = k) then Some v else od_get k d.
Proof.
  induction d as [|[k0 v0] d IH]; cbn.
  - by destruct (decide (k' = k)).
  - destruct (decide (k0 = k')) as [->|Hne]; cbn.
    + by destruct (decide (k' = k)).
    + destruct (decide (k0 = k)) as [->|Hne'].
      * by rewrite decide_False.
      * apply IH.
Qed.

Lemma od_get_foldl_inv {V} (R : string → V → Prop) (pairs acc : list (string * V)) :
  (∀ k v, od_get k acc = Some v → R k v) →
  (∀ k v, (k, v) ∈ pairs → R k v) →
  ∀ k v, od_get k (foldl (λ d kv, od_setitem kv.1 kv.2 d) acc pairs) = Some v → R k v.
Proof.
  revert acc. induction pairs as [|[k0 v0] pairs IH]; intros acc Hacc Hp; [done|].
  cbn [foldl]. apply IH.
  - intros k v. rewrite od_get_setitem. cbn [fst snd]. case_decide as Hd.
    + intros [= <-]. subst. apply Hp. left.
    + apply Hacc.
  - intros k v Hin. apply Hp. by right.
Qed.

Lemma od_get_foldl_is_Some {V} (pairs acc : list (string * V)) (k : string) :
  is_Some (od_get k acc) ∨ k ∈ pairs.*1 →
  is_Some (od_get k (foldl (λ d kv, od_setitem kv.1 kv.2 d) acc pairs)).
Proof.
  revert acc. induction pairs as [|[k0 v0] pairs IH]; intros acc Hk.
  - destruct Hk as [Hk|Hk]; [done|]. by apply elem_of_nil in Hk.
  - cbn [foldl]. apply IH. rewrite od_get_setitem. cbn [fst snd].
    destruct (decide (k0 = k)) as [->|Hne]; [left; by eexists|].
    destruct Hk as [Hk|Hk]; [by left|]. right.
    cbn in Hk. by apply elem_of_cons in Hk as [->|Hk].
Qed.

Lemma elem_of_zip_Forall2 {A B} (P : A → B → Prop) (ks : list A) (vs : list B) k v :
  Forall2 P ks vs → (k, v) ∈ zip ks vs → P k v.
Proof.
  induction 1 as [|k0 v0 ks vs HP _ IH]; cbn; intros Hin.
  - by apply elem_of_nil in Hin.
  - apply elem_of_cons in Hin as [[= -> ->]|Hin]; [done|by apply IH].
Qed.

(** The shape of every dictionary [fprop] returns on a sound wrapper. *)
Lemma fprop_Ok_shape m s w x (d : odict tensor) :
  wrapper_inv m s →
  result (KerasModelWrapper_fprop rewire x (s, w)) = Ok d →
  ∃ i outs,
    get_input_at m 0 = Ok i
    ∧ outputs_of m (map name (layers m)) = Ok outs
    ∧ d = OrderedDict (zip (map name (layers m)) (map (λ o, rewire i o x) outs)).
Proof.
  intros (Hm & _ & Hmw). subst m. rewrite fprop_eq, create_modelw_eq. unfold result.
  destruct (modelw s) as [km|] eqn:Hc.
  - destruct (Hmw _ eq_refl) as (i & outs & Hi & Hin & Hout & Houts).
    rewrite keras_call_eta, Hin, Hout, py_zip_keras_call. cbn [fst].
    case_decide; [done|]. intros [= <-]. by exists i, outs.
  - destruct (get_input_at _ 0) as [i|e]; [|done].
    destruct (outputs_of _ _) as [outs|e]; [|done].
    rewrite py_zip_keras_call. cbn [fst].
    case_decide; [done|]. intros [= <-]. by exists i, outs.
Qed.

(** X10. On a wrapper of a model without an input, [fprop(x)] raises the
    error of [get_input_at(0)], whatever was called before, and leaves
    the wrapper and the world as they were: no model is built. *)
Theorem fprop_without_input m σ x e :
  reachable rewire xent m σ →
  get_input_at m 0 = Raise e →
  KerasModelWrapper_fprop rewire x σ = (Raise e, σ).
Proof.
  intros Hreach Hi. pose proof (reachable_inv _ _ _ _ Hreach) as (Hm & _ & Hmw).
  destruct σ as [s w]. cbn [fst] in *. subst m.
  rewrite fprop_eq, create_modelw_eq.
  destruct (modelw s) as [km|] eqn:Hc.
  - destruct (Hmw _ eq_refl) as (i & outs & Hi' & _). congruence.
  - by rewrite Hi.
Qed.

(** X17. On a wrapper whose model has an input and exactly one layer,
    named like no other layer [get_layer] finds and in possession of an
    output, the first [fprop(x)] builds the all-layers model, stores it in
    [modelw], and then raises [TypeError]: the model, having a single
    output, returns a bare tensor where [zip] needs a list.  Every later
    [fprop] with that [modelw] raises [TypeError] again and builds
    nothing. *)
Theorem fprop_one_layer x s w i l o :
  layers (model (super s)) = [l] →
  well_named (model (super s)) →
  get_input_at (model (super s)) 0 = Ok i →
  output l = Ok o →
  (modelw s = None →
   KerasModelWrapper_fprop rewire x (s, w)
   = (Raise TypeError,
      (set_modelw (KModel (keras_built w) i (TensorList [o])) s,
       World (stdout w) (S (keras_built w)))))
  ∧ ∀ x' w',
      KerasModelWrapper_fprop rewire x'
        (set_modelw (KModel (keras_built w) i (TensorList [o])) s, w')
      = (Raise TypeError,
         (set_modelw (KModel (keras_built w) i (TensorList [o])) s, w')).
Proof.
  intros Hls Hwn Hi Ho.
  assert (Hl : get_layer (model (super s)) (name l) = Ok l).
  { apply get_layer_listed; [done|]. rewrite Hls. left. }
  split.
  - intros Hnone. rewrite fprop_eq, Hnone, create_modelw_eq, Hi, Hls.
    cbn [map outputs_of]. by rewrite Hl, Ho.
  - intros x' w'. rewrite fprop_eq. by proj_simpl.
Qed.

(** X11. [fprop] and [fprop_layer] agree, even when layer names repeat:
    the dictionary [fprop(x)] returns has an entry for the name of every
    layer, and the value under any key is the tensor [fprop_layer(x, key)]
    returns. *)
Theorem fprop_agrees_with_fprop_layer m σ x (d : odict tensor) :
  reachable rewire xent m σ →
  result (KerasModelWrapper_fprop rewire x σ) = Ok d →
  (∀ l, l ∈ layers m → is_Some (od_get (name l) d))
  ∧ ∀ key v, od_get key d = Some v →
             result (KerasModelWrapper_fprop_layer rewire x key σ) = Ok (Tensor v).
Proof.
  intros Hreach Hd. pose proof (reachable_inv _ _ _ _ Hreach) as Hinv.
  destruct σ as [s w]. cbn [fst] in Hinv.
  destruct (fprop_Ok_shape _ _ _ _ _ Hinv Hd) as (i & outs & Hi & Houts & ->).
  apply outputs_of_Forall2 in Houts.
  assert (Hvals : Forall2 (λ nm v, ∃ l o, get_layer m nm = Ok l ∧ output l = Ok o
                                          ∧ v = rewire i o x)
                          (map name (layers m)) (map (λ o, rewire i o x) outs)).
  { apply Forall2_fmap_r. eapply Forall2_impl; [exact Houts|].
    intros nm o (l & Hl & Ho). by exists l, o. }
  split.
  - intros l Hl. apply od_get_foldl_is_Some. right.
    rewrite fst_zip by (by rewrite (Forall2_length _ _ _ Hvals)).
    by apply (list_elem_of_fmap_2 name).
  - intros key v Hget.
    assert (∃ l o, get_layer m key = Ok l ∧ output l = Ok o ∧ v = rewire i o x)
      as (l & o & Hl & Ho & ->).
    { refine (od_get_foldl_inv
                (λ k v0, ∃ l o, get_layer m k = Ok l ∧ output l = Ok o
                                ∧ v0 = rewire i o x)
                _ [] _ _ key v Hget); [done|].
      intros k v' Hin. exact (elem_of_zip_Forall2 _ _ _ _ _ Hvals Hin). }
    by eapply fprop_layer_result.
Qed.

(** *** Memoisation is transparent *)

(** X12. Once [fprop_layer(x, L)] has returned [r], the same call returns
    [r] again after any further history -- served from the cache, with
    nothing built and nothing changed. *)
Theorem fprop_layer_repeatable x layer_name σ0 r σ1 σ2 :
  KerasModelWrapper_fprop_layer rewire x layer_name σ0 = (Ok r, σ1) →
  rtc (step rewire xent) σ1 σ2 →
  KerasModelWrapper_fprop_layer rewire x layer_name σ2 = (Ok r, σ2).
Proof.
  intros Hcall Hrtc.
  assert (∃ km, modelw_layer σ1.1 !! layer_name = Some km
                ∧ keras_call rewire km x = r) as (km & Hkm & Hr).
  { destruct σ0 as [s w]. rewrite fprop_layer_eq in Hcall.
    destruct (modelw_layer s !! layer_name) as [km|] eqn:Hc.
    - injection Hcall as <- <-. by exists km.
    - destruct (get_input_at _ 0) as [i|e]; [|done].
      destruct (get_layer _ layer_name) as [l|e]; [|done].
      destruct (output l) as [o|e]; [|done].
      injection Hcall as <- <-. eexists. proj_simpl.
      split; [apply lookup_insert_eq|done]. }
  apply (rtc_step_evolves rewire xent) in Hrtc as [(_ & _ & Hmono & _) _].
  pose proof (Hmono _ _ Hkm) as Hkm2.
  destruct σ2 as [s2 w2]. rewrite fprop_layer_eq. cbn [fst] in Hkm2.
  by rewrite Hkm2, Hr.
Qed.

(** X13. Once [fprop(x)] has returned a dictionary, the same call returns
    an equal dictionary after any further history, with nothing built and
    nothing changed. *)
Theorem fprop_repeatable x σ0 (d : odict tensor) σ1 σ2 :
  KerasModelWrapper_fprop rewire x σ0 = (Ok d, σ1) →
  rtc (step rewire xent) σ1 σ2 →
  KerasModelWrapper_fprop rewire x σ2 = (Ok d, σ2).
Proof.
  intros Hcall Hrtc.
  assert (∃ km, modelw σ1.1 = Some km
                ∧ model (super σ1.1) = model (super σ0.1)
                ∧ py_zip (map name (layers (model (super σ0.1)))) (keras_call rewire km x)
                  = Ok (zip (map name (layers (model (super σ0.1))))
                            (match keras_call rewire km x with
                             | TensorList ts => ts
                             | Tensor _ => []
                             end))
                ∧ d = OrderedDict (zip (map name (layers (model (super σ0.1))))
                                       (match keras_call rewire km x with
                                        | TensorList ts => ts
                                        | Tensor _ => []
                                        end)))
    as (km & Hkm & Hmodel & Hzip & ->).
  { destruct σ0 as [s w]. rewrite fprop_eq, create_modelw_eq in Hcall.
    destruct (modelw s) as [km|] eqn:Hc.
    - exists km. destruct (keras_call rewire km x) as [t|ts]; [done|].
      cbn in Hcall. injection Hcall as <- <-. by split_and!.
    - destruct (get_input_at _ 0) as [i|e]; [|done].
      destruct (outputs_of _ _) as [outs|e]; [|done].
      exists (KModel (keras_built w) i (TensorList outs)).
      destruct (keras_call rewire (KModel (keras_built w) i (TensorList outs)) x)
        as [t|ts]; [done|].
      cbn in Hcall. injection Hcall as <- <-. by split_and!. }
  apply (rtc_step_evolves rewire xent) in Hrtc as [(Hm & _ & _ & Hmw & _) _].
  specialize (Hmw _ Hkm). destruct σ2 as [s2 w2]. cbn [fst] in *.
  rewrite fprop_eq, Hmw, Hm, Hmodel, Hzip. done.
Qed.

(** *** What a history leaves behind *)

Lemma invoke_keeps_train (c : method_call tensor) σ :
  (∀ t, c ≠ call_set_train t) →
  train (super (snd (invoke rewire xent c σ)).1) = train (super σ.1)
  ∧ stdout (snd (invoke rewire xent c σ)).2 = stdout σ.2.
Proof.
  intros Hc.
  pose proof (invoke_train_blind rewire xent c Hc (train (super σ.1)) (stdout σ.2) σ)
    as Hblind.
  rewrite relabel_id in Hblind.
  destruct (invoke rewire xent c σ) as [r σ']. cbn [fst snd] in *.
  injection Hblind as Hσ'. by rewrite Hσ'.
Qed.

Lemma run_keeps_model (cs : list (method_call tensor)) σ :
  model (super (run rewire xent cs σ).1) = model (super σ.1)
  ∧ fprop_cache (super (run rewire xent cs σ).1) = fprop_cache (super σ.1).
Proof.
  destruct (rtc_step_evolves rewire xent _ _ (rtc_step_run rewire xent cs σ))
    as [(Hm & Hc & _) _].
  by split.
Qed.

Lemma run_train (cs : list (method_call tensor)) σ :
  train (super (run rewire xent cs σ).1)
  = default (train (super σ.1)) (last (set_train_args cs))
  ∧ stdout (run rewire xent cs σ).2
    = stdout σ.2 ++ map set_train_line (set_train_args cs).
Proof.
  revert σ. induction cs as [|c cs IH]; intros σ; cbn [run].
  - cbn. by rewrite app_nil_r.
  - destruct (IH (snd (invoke rewire xent c σ))) as [IHt IHo].
    rewrite IHt, IHo.
    destruct c as [t0|x|x nm|x|x| |x|x y logits| | |];
      [|match goal with
        | |- context [invoke rewire xent ?c σ] =>
            by destruct (invoke_keeps_train c σ ltac:(done)) as [-> ->]
        end..].
    destruct σ as [s w]. cbn [invoke set_train_args omap].
    rewrite set_train_eq. proj_simpl.
    change (set_train_args (call_set_train t0 :: cs)) with (t0 :: set_train_args cs).
    cbn [map]. rewrite last_cons. split.
    + by destruct (last (set_train_args cs)).
    + by rewrite <-app_assoc.
Qed.

(** X14. After any history on a fresh wrapper of [m]: the wrapped model
    is still [m]; the base-class cache [fprop_cache] is still empty, the
    wrapper never writes it; [train] is the argument of the last
    [set_train] call, [False] if there was none; and the output log grew
    by exactly one line per [set_train] call, in order. *)
Theorem history_frame m w (cs : list (method_call tensor)) :
  model (super (run rewire xent cs (KerasModelWrapper___init__ m, w)).1) = m
  ∧ fprop_cache (super (run rewire xent cs (KerasModelWrapper___init__ m, w)).1) = ∅
  ∧ train (super (run rewire xent cs (KerasModelWrapper___init__ m, w)).1)
    = default false (last (set_train_args cs))
  ∧ stdout (run rewire xent cs (KerasModelWrapper___init__ m, w)).2
    = stdout w ++ map set_train_line (set_train_args cs).
Proof.
  destruct (run_keeps_model cs (KerasModelWrapper___init__ m, w)) as [Hm Hc].
  destruct (run_train cs (KerasModelWrapper___init__ m, w)) as [Ht Ho].
  by split_and!.
Qed.

(** *** Every built model is accounted for *)

Lemma accounted_unchanged {A} (f : Py (KerasModelWrapper tensor) A) :
  (∀ σ, snd (f σ) = σ) → accounted f.
Proof. intros Hf σ. by rewrite Hf. Qed.

Lemma accounted_bind {A B} (f : Py (KerasModelWrapper tensor) A)
    (k : A → Py (KerasModelWrapper tensor) B) :
  accounted f → (∀ a, accounted (k a)) → accounted (f ≫= k).
Proof.
  intros Hf Hk σ. rewrite bind_eq. specialize (Hf σ).
  destruct (f σ) as [[a|e] σ']; [|done].
  specialize (Hk a σ'). cbn [fst snd] in *. lia.
Qed.

Lemma fprop_layer_accounted x layer_name :
  accounted (KerasModelWrapper_fprop_layer rewire x layer_name).
Proof.
  intros [s w]. rewrite fprop_layer_eq.
  destruct (modelw_layer s !! layer_name) as [km|] eqn:Hl; [done|].
  destruct (get_input_at _ 0) as [i|e]; [|done].
  destruct (get_layer _ layer_name) as [l|e]; [|done].
  destruct (output l) as [o|e]; [|done].
  unfold models_held. proj_simpl. rewrite map_size_insert_None by done. lia.
Qed.

Lemma fprop_accounted x : accounted (KerasModelWrapper_fprop rewire x).
Proof.
  intros [s w]. rewrite fprop_eq, create_modelw_eq. unfold models_held.
  destruct (modelw s) as [km|] eqn:Hmw; proj_simpl; rewrite ?Hmw; [done|].
  destruct (get_input_at _ 0) as [i|e]; proj_simpl; rewrite ?Hmw; [|done].
  destruct (outputs_of _ _) as [outs|e]; proj_simpl; rewrite ?Hmw; [lia|done].
Qed.

Lemma discard_accounted {A} (f : Py (KerasModelWrapper tensor) A) :
  accounted f → accounted (discard f).
Proof. intros Hf σ. rewrite discard_eq. apply Hf. Qed.

Lemma invoke_accounted (c : method_call tensor) :
  stores_what_it_builds c = true → accounted (invoke rewire xent c).
Proof.
  intros Hc. destruct c as [t0|x|x nm|x|x| |x|x y logits| | |];
    cbn [invoke]; try apply discard_accounted; try done.
  - apply accounted_bind; [by apply accounted_unchanged|].
    intros nm. apply fprop_layer_accounted.
  - apply fprop_layer_accounted.
  - apply accounted_bind; [|intros nm; apply fprop_layer_accounted].
    apply accounted_unchanged. intros [s w]. by rewrite get_logits_name_eq.
  - apply accounted_bind; [by apply accounted_unchanged|].
    intros nm. apply fprop_layer_accounted.
  - apply fprop_accounted.
  - apply accounted_unchanged. intros [s w]. by rewrite get_logits_name_eq.
Qed.

Lemma run_accounted (cs : list (method_call tensor)) σ :
  Forall (λ c, stores_what_it_builds c = true) cs →
  keras_built (run rewire xent cs σ).2 + models_held σ.1
  = keras_built σ.2 + models_held (run rewire xent cs σ).1.
Proof.
  intros Hcs. revert σ. induction Hcs as [|c cs Hc _ IH]; intros σ; cbn [run]; [done|].
  specialize (IH (snd (invoke rewire xent c σ))).
  pose proof (invoke_accounted c Hc σ). lia.
Qed.

Lemma size_list_to_set_le (names : list string) :
  (size (list_to_set names : gset string) ≤ length names)%nat.
Proof.
  induction names as [|nm names IH]; cbn [list_to_set length].
  - by rewrite size_empty.
  - rewrite size_union_alt, size_singleton.
    assert (size (list_to_set names ∖ {[nm]} : gset string)
            ≤ size (list_to_set names : gset string))%nat.
    { apply subseteq_size, subseteq_difference_l. done. }
    lia.
Qed.

Lemma wrapper_inv_size m s :
  wrapper_inv m s → (size (modelw_layer s) ≤ length (get_layer_scope m))%nat.
Proof.
  intros (_ & Hls & _). rewrite <-size_dom.
  etrans; [|etrans; [apply (size_list_to_set_le (map name (get_layer_scope m)))|]].
  - apply subseteq_size. intros nm Hnm.
    apply elem_of_dom in Hnm as [km Hkm].
    destruct (Hls _ _ Hkm) as (i & l & o & _ & Hl & _).
    apply elem_of_list_to_set. by eapply get_layer_Ok_name.
  - by rewrite length_map.
Qed.

(** X15. On a fresh wrapper of [m], after any history that does not call
    [_create_modelw] directly, the number of Keras models built since the
    start is the number of models the wrapper holds -- the entries of
    [modelw_layer], plus [modelw] once set.  That number never exceeds
    the number of layers [get_layer] can find in [m], plus one, however
    many calls were made. *)
Theorem builds_are_cached m w (cs : list (method_call tensor)) :
  Forall (λ c, stores_what_it_builds c = true) cs →
  keras_built (run rewire xent cs (KerasModelWrapper___init__ m, w)).2
  = keras_built w + models_held (run rewire xent cs (KerasModelWrapper___init__ m, w)).1
  ∧ (keras_built (run rewire xent cs (KerasModelWrapper___init__ m, w)).2
     ≤ keras_built w + length (get_layer_scope m) + 1)%nat.
Proof.
  intros Hcs.
  pose proof (run_accounted cs (KerasModelWrapper___init__ m, w) Hcs) as Hacc.
  pose proof (reachable_inv rewire xent m _ (reachable_run rewire xent m w cs)) as Hinv.
  pose proof (wrapper_inv_size _ _ Hinv) as Hsize.
  assert (H0 : models_held (KerasModelWrapper___init__ m) = 0).
  { unfold models_held, KerasModelWrapper___init__. cbn [modelw_layer modelw].
    by rewrite map_size_empty. }
  cbn [fst snd] in Hacc. rewrite H0 in Hacc. split; [lia|].
  unfold models_held in Hacc.
  destruct (modelw (run rewire xent cs (KerasModelWrapper___init__ m, w)).1); lia.
Qed.

(** X16. After any history on a wrapper of [m], every entry of
    [modelw_layer] sits under a name for which [get_layer] finds a layer
    of [m], and is the graph from the input of [m] to the output of that
    layer: applied to any [x] it yields that output recomputed on [x].
    Which input the entry was first built for leaves no trace. *)
Theorem cached_layer_models_sound m σ layer_name (km : keras_Model tensor) :
  reachable rewire xent m σ →
  modelw_layer σ.1 !! layer_name = Some km →
  layer_name ∈ map name (get_layer_scope m)
  ∧ ∃ i l o, get_input_at m 0 = Ok i
             ∧ get_layer m layer_name = Ok l
             ∧ output l = Ok o
             ∧ km_input km = i
             ∧ km_outputs km = Tensor o
             ∧ ∀ x, keras_call rewire km x = Tensor (rewire i o x).
Proof.
  intros Hreach Hkm. pose proof (reachable_inv _ _ _ _ Hreach) as (_ & Hls & _).
  destruct (Hls _ _ Hkm) as (i & l & o & Hi & Hl & Ho & Hin & Hout).
  split; [by eapply get_layer_Ok_name|].
  exists i, l, o. split_and!; [done..|].
  intros x. unfold keras_call. by rewrite Hout, Hin.
Qed.
End WrapperExtras.

(** * The results on the concrete instance *)

Section Witnesses.
Import Example.



(** C2 as stated fails on a model with two softmax activations: the
    final one is [activation_2], the method returns another name. *)
Lemma get_softmax_name_not_final :
  ¬ ((∃ l, l ∈ layers two_softmax ∧ activation_is_softmax (get_config l) = true) →
     ∀ nm, final_softmax_name two_softmax = Some nm →
           result (KerasModelWrapper__get_softmax_name (fresh two_softmax)) = Ok nm).
Proof.
  intros Hclaim.
  assert (Hex : ∃ l, l ∈ layers two_softmax
                     ∧ activation_is_softmax (get_config l) = true).
  { exists activation_2. split; [|reflexivity]. do 4 right. left. }
  specialize (Hclaim Hex "activation_2" eq_refl).
  vm_compute in Hclaim. discriminate Hclaim.
Qed.

(** On that model the method returns [attention_1], the first softmax
    activation in [model.layers]. *)
Lemma get_softmax_name_first_witness :
  (∃ l, l ∈ layers two_softmax ∧ activation_is_softmax (get_config l) = true)
  ∧ ∃ pre l post,
      layers two_softmax = pre ++ l :: post
      ∧ Forall (λ l', activation_is_softmax (get_config l') = false) pre
      ∧ activation_is_softmax (get_config l) = true
      ∧ KerasModelWrapper__get_softmax_name (fresh two_softmax)
        = (Ok (name l), fresh two_softmax).
Proof.
  assert (Hex : ∃ l, l ∈ layers two_softmax
                     ∧ activation_is_softmax (get_config l) = true).
  { exists activation_2. split; [|reflexivity]. do 4 right. left. }
  split; [exact Hex|].
  exact (get_softmax_name_first (KerasModelWrapper___init__ two_softmax) w0 Hex).
Defined.

(** C3 on the classifier: [dense_1] is exposed once, then the flag is
    flipped and other layers are exposed; the entry for [dense_1] is the
    model with identity 0 throughout. *)
Lemma fprop_layer_cache_stable_witness :
  let first := KerasModelWrapper_fprop_layer rewire "x" "dense_1" (fresh classifier) in
  let σ2 := run rewire xent
              [call_set_train true; call_fprop "y"; call_fprop_logits "y"]
              (snd first) in
  first = (Ok (Tensor "dense_1/Relu:0[input_1:0:=x]"), snd first)
  ∧ rtc (step rewire xent) (snd first) σ2
  ∧ ∃ km, modelw_layer (snd first).1 !! "dense_1" = Some km
          ∧ modelw_layer σ2.1 !! "dense_1" = Some km
          ∧ KerasModelWrapper_fprop_layer rewire "z" "dense_1" σ2
            = (Ok (keras_call rewire km "z"), σ2)
          ∧ keras_built
              (world_after (KerasModelWrapper_fprop_layer rewire "z" "dense_1" σ2))
            = keras_built σ2.2.
Proof.
  intros first σ2.
  assert (Hfirst : first = (Ok (Tensor "dense_1/Relu:0[input_1:0:=x]"), snd first))
    by reflexivity.
  assert (Hrtc : rtc (step rewire xent) (snd first) σ2) by apply rtc_step_run.
  split_and!; [exact Hfirst|exact Hrtc|].
  exact (fprop_layer_cache_stable rewire xent "x" "dense_1" (fresh classifier)
           _ (snd first) σ2 "z" Hfirst Hrtc).
Defined.

(** C4 on the classifier: [fprop] builds the all-layers model on the
    first call and never again. *)
Lemma fprop_builds_modelw_once_witness :
  let first := KerasModelWrapper_fprop rewire "x" (fresh classifier) in
  let σ2 := run rewire xent [call_fprop_layer "y" "dense_2"; call_set_train true]
              (snd first) in
  modelw (KerasModelWrapper___init__ classifier) = None
  ∧ first = (Ok [("input_1", "input_1:0[input_1:0:=x]");
                 ("dense_1", "dense_1/Relu:0[input_1:0:=x]");
                 ("dense_2", "dense_2/BiasAdd:0[input_1:0:=x]");
                 ("activation_1", "activation_1/Softmax:0[input_1:0:=x]")],
             snd first)
  ∧ rtc (step rewire xent) (snd first) σ2
  ∧ keras_built (snd first).2 = 1
  ∧ ∃ km, result (KerasModelWrapper__create_modelw (fresh classifier)) = Ok km
          ∧ modelw (snd first).1 = Some km
          ∧ modelw σ2.1 = Some km
          ∧ ∃ d', KerasModelWrapper_fprop rewire "z" σ2 = (Ok d', σ2)
                  ∧ result (KerasModelWrapper_fprop rewire "z" (forget_modelw σ2)) = Ok d'
                  ∧ keras_built
                      (world_after (KerasModelWrapper_fprop rewire "z" (forget_modelw σ2)))
                    = S (keras_built σ2.2).
Proof.
  intros first σ2.
  assert (Hfirst : first = (Ok [("input_1", "input_1:0[input_1:0:=x]");
                                ("dense_1", "dense_1/Relu:0[input_1:0:=x]");
                                ("dense_2", "dense_2/BiasAdd:0[input_1:0:=x]");
                                ("activation_1", "activation_1/Softmax:0[input_1:0:=x]")],
                            snd first)) by reflexivity.
  assert (Hrtc : rtc (step rewire xent) (snd first) σ2) by apply rtc_step_run.
  split_and!; [reflexivity|exact Hfirst|exact Hrtc|..];
    apply (fprop_builds_modelw_once rewire xent "x"
             (KerasModelWrapper___init__ classifier) w0 _ (snd first) σ2 "z"
             eq_refl Hfirst Hrtc).
Defined.

(** C5 on a base-class object whose cache holds an entry for
    (x, False). *)
Lemma Model_fprop_cache_hit_witness :
  fprop_cache cached !! ("x", train cached) = Some [("dense_1", "h"); ("probs", "p")]
  ∧ Model_fprop "x" (cached, w0) = (Ok [("dense_1", "h"); ("probs", "p")], (cached, w0)).
Proof.
  split; [reflexivity|].
  apply (@Model_fprop_cache_hit string _ _ unit (Model string unit) Model_ModelClass
           "x" cached w0 [("dense_1", "h"); ("probs", "p")] eq_refl).
Defined.




(** C8 on the same base-class object, asked about an input that was
    never cached. *)
Lemma Model_fprop_layer_miss_witness :
  fprop_cache cached !! ("y", train cached) = None
  ∧ Model_fprop_layer "y" "probs" (cached, w0) = (Raise KeyError, (cached, w0)).
Proof.
  split; [reflexivity|].
  apply (@Model_fprop_layer_miss string _ _ unit (Model string unit) Model_ModelClass
           "y" "probs" cached w0 eq_refl).
Defined.

(** C9 on the classifier: training mode against inference mode. *)
Lemma fprop_layer_ignores_train_witness :
  let cs1 := [call_fprop "x0"; call_set_train true; call_fprop_layer "x1" "dense_1"] in
  let cs2 := [call_fprop "x0"; call_set_train false; call_fprop_layer "x1" "dense_1"] in
  same_but_set_train cs1 cs2
  ∧ result (KerasModelWrapper_fprop_layer rewire "x" "dense_2"
              (run rewire xent cs1 (fresh classifier)))
    = result (KerasModelWrapper_fprop_layer rewire "x" "dense_2"
                (run rewire xent cs2 (fresh classifier))).
Proof.
  intros cs1 cs2.
  assert (Hsame : same_but_set_train cs1 cs2).
  { constructor; [by left|]. constructor; [right; by exists true, false|].
    constructor; [by left|]. constructor. }
  split; [exact Hsame|].
  apply (fprop_layer_ignores_train rewire xent cs1 cs2 (fresh classifier)
           "x" "dense_2" Hsame).
Defined.
End Witnesses.

(** * The further properties on the concrete instance *)

Section ExtraWitnesses.
Import Example.

(** X1 on the base-class object with a cached entry for (x, False). *)
Lemma Model_fprop_returns_only_hits_witness :
  result (Model_fprop "x" (cached, w0)) = Ok [("dense_1", "h"); ("probs", "p")]
  ∧ fprop_cache cached !! ("x", train cached) = Some [("dense_1", "h"); ("probs", "p")]
  ∧ snd (Model_fprop "x" (cached, w0)) = (cached, w0).
Proof.
  split; [reflexivity|].
  exact (@Model_fprop_returns_only_hits string _ _ unit (Model string unit)
           Model_ModelClass "x" (cached, w0) [("dense_1", "h"); ("probs", "p")] eq_refl).
Defined.

(** X2 on the same object: a layer that is in the dictionary and one that
    is not. *)
Lemma Model_fprop_layer_reads_fprop_witness :
  result (Model_fprop "x" (cached, w0)) = Ok [("dense_1", "h"); ("probs", "p")]
  ∧ Model_fprop_layer "x" "probs" (cached, w0) = (Ok "p", (cached, w0))
  ∧ Model_fprop_layer "x" "logits" (cached, w0) = (Raise KeyError, (cached, w0)).
Proof.
  split_and!; [reflexivity| |].
  - exact (@Model_fprop_layer_reads_fprop string _ _ unit (Model string unit)
             Model_ModelClass "x" "probs" (cached, w0) _ eq_refl).
  - exact (@Model_fprop_layer_reads_fprop string _ _ unit (Model string unit)
             Model_ModelClass "x" "logits" (cached, w0) _ eq_refl).
Defined.

(** X4 on the classifier, asked for a layer it does not have. *)
Lemma fprop_layer_failure_witness :
  modelw_layer (KerasModelWrapper___init__ classifier) !! "dense_9" = None
  ∧ get_input_at classifier 0 = Ok "input_1:0"
  ∧ get_layer classifier "dense_9" = Raise (ValueError "No such layer: dense_9")
  ∧ KerasModelWrapper_fprop_layer rewire "x" "dense_9" (fresh classifier)
    = (Raise (ValueError "No such layer: dense_9"), fresh classifier).
Proof.
  assert (Hmiss : modelw_layer (KerasModelWrapper___init__ classifier) !! "dense_9"
                  = None) by reflexivity.
  destruct (fprop_layer_failure rewire "x" "dense_9"
              (KerasModelWrapper___init__ classifier) w0 Hmiss) as (_ & Hlayer & _).
  split_and!; [exact Hmiss|reflexivity|reflexivity|].
  exact (Hlayer "input_1:0" _ eq_refl eq_refl).
Defined.

(** X5 on the one-layer [Sequential]: the name of its input layer is
    served, a name [get_layer] does not find is not. *)
Lemma fprop_layer_unknown_name_witness :
  let σ := run rewire xent [call_fprop_layer "x0" "dense_1_input"] (fresh one_layer) in
  reachable rewire xent one_layer σ
  ∧ ("dense_9" ∉ map name (get_layer_scope one_layer))
  ∧ ∃ e, KerasModelWrapper_fprop_layer rewire "x" "dense_9" σ = (Raise e, σ).
Proof.
  intros σ.
  assert (Hreach : reachable rewire xent one_layer σ) by apply reachable_run.
  assert (Hnin : "dense_9" ∉ map name (get_layer_scope one_layer)).
  { apply (bool_decide_unpack _). vm_compute. exact I. }
  split_and!; [exact Hreach|exact Hnin|].
  exact (fprop_layer_unknown_name rewire xent one_layer σ "x" "dense_9" Hreach Hnin).
Defined.

(** X6 on the classifier: the first exposure of [dense_2] builds one
    model and leaves the entry of [dense_1] alone. *)
Lemma fprop_layer_frame_witness :
  let σ := run rewire xent [call_fprop_layer "x0" "dense_1"] (fresh classifier) in
  let call := KerasModelWrapper_fprop_layer rewire "x" "dense_2" σ in
  call = (Ok (Tensor "dense_2/BiasAdd:0[input_1:0:=x]"), snd call)
  ∧ modelw_layer (snd call).1 !! "dense_1" = modelw_layer σ.1 !! "dense_1"
  ∧ keras_built (snd call).2 = 2.
Proof.
  intros σ call.
  assert (Hcall : call = (Ok (Tensor "dense_2/BiasAdd:0[input_1:0:=x]"), snd call))
    by reflexivity.
  destruct (fprop_layer_frame rewire "x" "dense_2" σ.1 σ.2 _ (snd call) Hcall)
    as (_ & _ & _ & _ & Hother & Hbuilt).
  split_and!; [exact Hcall| |exact Hbuilt].
  apply Hother. discriminate.
Defined.


(** X8 on a model without softmax. *)
Lemma no_softmax_raises_witness :
  Forall (λ l, activation_is_softmax (get_config l) = false) (layers regressor)
  ∧ KerasModelWrapper_fprop_logits rewire "x" (fresh regressor)
    = (Raise (Exception "No softmax layers found"), fresh regressor).
Proof.
  assert (Hall : Forall (λ l, activation_is_softmax (get_config l) = false)
                        (layers regressor)).
  { repeat constructor. }
  split; [exact Hall|].
  apply (no_softmax_raises rewire "x" (KerasModelWrapper___init__ regressor) w0 Hall).
Defined.

(** X9 on a model whose softmax layer has no inbound node. *)
Lemma fprop_logits_no_predecessor_witness :
  result (KerasModelWrapper__get_softmax_name (fresh detached)) = Ok "activation_3"
  ∧ get_layer detached "activation_3" = Ok detached_softmax
  ∧ inbound_nodes detached_softmax = []
  ∧ KerasModelWrapper_fprop_logits rewire "x" (fresh detached)
    = (Raise IndexError, fresh detached).
Proof.
  split_and!; [reflexivity..|].
  exact (fprop_logits_no_predecessor rewire "x" (KerasModelWrapper___init__ detached) w0
           "activation_3" detached_softmax eq_refl eq_refl (or_introl eq_refl)).
Defined.

(** X10 on a model that was never given an input. *)
Lemma fprop_without_input_witness :
  let σ := run rewire xent [call_set_train true; call_fprop "x0"] (fresh unbuilt) in
  reachable rewire xent unbuilt σ
  ∧ get_input_at unbuilt 0
    = Raise (RuntimeError "The layer has never been called and thus has no defined input.")
  ∧ KerasModelWrapper_fprop rewire "x" σ
    = (Raise (RuntimeError
                "The layer has never been called and thus has no defined input."), σ).
Proof.
  intros σ.
  assert (Hreach : reachable rewire xent unbuilt σ) by apply reachable_run.
  split_and!; [exact Hreach|reflexivity|].
  exact (fprop_without_input rewire xent unbuilt σ "x" _ Hreach eq_refl).
Defined.

(** X17 on the one-layer [Sequential]. *)
Lemma fprop_one_layer_witness :
  layers one_layer = [only_dense]
  ∧ well_named one_layer
  ∧ get_input_at one_layer 0 = Ok "dense_1_input:0"
  ∧ output only_dense = Ok "dense_1/Softmax:0"
  ∧ modelw (KerasModelWrapper___init__ one_layer) = None
  ∧ result (KerasModelWrapper_fprop rewire "x" (fresh one_layer)) = Raise TypeError
  ∧ modelw (self_after (KerasModelWrapper_fprop rewire "x" (fresh one_layer)))
    = Some (KModel 0 "dense_1_input:0" (TensorList ["dense_1/Softmax:0"])).
Proof.
  assert (Hwn : well_named one_layer).
  { split; apply (bool_decide_unpack _); vm_compute; exact I. }
  destruct (fprop_one_layer rewire "x" (KerasModelWrapper___init__ one_layer) w0
              "dense_1_input:0" only_dense "dense_1/Softmax:0"
              eq_refl Hwn eq_refl eq_refl) as [Hfirst _].
  specialize (Hfirst eq_refl).
  split_and!; [reflexivity|exact Hwn|reflexivity..| |]; unfold fresh; by rewrite Hfirst.
Defined.

(** X11 on the classifier. *)
Lemma fprop_agrees_with_fprop_layer_witness :
  let σ := run rewire xent [call_fprop_layer "x0" "dense_1"] (fresh classifier) in
  reachable rewire xent classifier σ
  ∧ result (KerasModelWrapper_fprop rewire "x" σ)
    = Ok [("input_1", "input_1:0[input_1:0:=x]");
          ("dense_1", "dense_1/Relu:0[input_1:0:=x]");
          ("dense_2", "dense_2/BiasAdd:0[input_1:0:=x]");
          ("activation_1", "activation_1/Softmax:0[input_1:0:=x]")]
  ∧ result (KerasModelWrapper_fprop_layer rewire "x" "dense_2" σ)
    = Ok (Tensor "dense_2/BiasAdd:0[input_1:0:=x]").
Proof.
  intros σ.
  assert (Hreach : reachable rewire xent classifier σ) by apply reachable_run.
  split_and!; [exact Hreach|reflexivity|].
  destruct (fprop_agrees_with_fprop_layer rewire xent classifier σ "x" _ Hreach eq_refl)
    as [_ Hval].
  apply (Hval "dense_2"). reflexivity.
Defined.

(** X12 on the classifier. *)
Lemma fprop_layer_repeatable_witness :
  let first := KerasModelWrapper_fprop_layer rewire "x" "dense_1" (fresh classifier) in
  let σ2 := run rewire xent [call_set_train true; call_fprop "y"] (snd first) in
  first = (Ok (Tensor "dense_1/Relu:0[input_1:0:=x]"), snd first)
  ∧ rtc (step rewire xent) (snd first) σ2
  ∧ KerasModelWrapper_fprop_layer rewire "x" "dense_1" σ2
    = (Ok (Tensor "dense_1/Relu:0[input_1:0:=x]"), σ2).
Proof.
  intros first σ2.
  assert (Hfirst : first = (Ok (Tensor "dense_1/Relu:0[input_1:0:=x]"), snd first))
    by reflexivity.
  assert (Hrtc : rtc (step rewire xent) (snd first) σ2) by apply rtc_step_run.
  split_and!; [exact Hfirst|exact Hrtc|].
  exact (fprop_layer_repeatable rewire xent "x" "dense_1" (fresh classifier)
           _ (snd first) σ2 Hfirst Hrtc).
Defined.

(** X13 on the model with two softmax activations. *)
Lemma fprop_repeatable_witness :
  let first := KerasModelWrapper_fprop rewire "x" (fresh two_softmax) in
  let σ2 := run rewire xent [call_fprop_probs "y"; call_set_train true] (snd first) in
  first = (Ok [("input_1", "input_1:0[input_1:0:=x]");
           ("dense_1", "dense_1/Relu:0[input_1:0:=x]");
           ("attention_1", "attention_1/Softmax:0[input_1:0:=x]");
           ("dense_3", "dense_3/BiasAdd:0[input_1:0:=x]");
           ("activation_2", "activation_2/Softmax:0[input_1:0:=x]")],
           snd first)
  ∧ rtc (step rewire xent) (snd first) σ2
  ∧ KerasModelWrapper_fprop rewire "x" σ2
    = (Ok [("input_1", "input_1:0[input_1:0:=x]");
           ("dense_1", "dense_1/Relu:0[input_1:0:=x]");
           ("attention_1", "attention_1/Softmax:0[input_1:0:=x]");
           ("dense_3", "dense_3/BiasAdd:0[input_1:0:=x]");
           ("activation_2", "activation_2/Softmax:0[input_1:0:=x]")],
       σ2).
Proof.
  intros first σ2.
  assert (Hfirst : first
                   = (Ok [("input_1", "input_1:0[input_1:0:=x]");
           ("dense_1", "dense_1/Relu:0[input_1:0:=x]");
           ("attention_1", "attention_1/Softmax:0[input_1:0:=x]");
           ("dense_3", "dense_3/BiasAdd:0[input_1:0:=x]");
           ("activation_2", "activation_2/Softmax:0[input_1:0:=x]")], snd first)) by reflexivity.
  assert (Hrtc : rtc (step rewire xent) (snd first) σ2) by apply rtc_step_run.
  split_and!; [exact Hfirst|exact Hrtc|].
  exact (fprop_repeatable rewire xent "x" (fresh two_softmax) _ (snd first) σ2
           Hfirst Hrtc).
Defined.

(** X15 on the classifier: seven calls, three models built. *)
Lemma builds_are_cached_witness :
  let cs := [call_fprop "a"; call_fprop "b"; call_fprop_logits "a";
             call_fprop_logits "b"; call_set_train true; call_fprop_probs "a";
             call___call__ "c"] in
  Forall (λ c, stores_what_it_builds c = true) cs
  ∧ keras_built (run rewire xent cs (fresh classifier)).2
    = 0 + models_held (run rewire xent cs (fresh classifier)).1
  ∧ (keras_built (run rewire xent cs (fresh classifier)).2
     ≤ 0 + length (get_layer_scope classifier) + 1)%nat.
Proof.
  intros cs.
  assert (Hcs : Forall (λ c, stores_what_it_builds c = true) cs).
  { repeat constructor. }
  split; [exact Hcs|].
  exact (builds_are_cached rewire xent classifier w0 cs Hcs).
Defined.

(** X16 on the classifier, for the entry the logits were served from. *)
Lemma cached_layer_models_sound_witness :
  let σ := run rewire xent [call_fprop_logits "x0"] (fresh classifier) in
  reachable rewire xent classifier σ
  ∧ modelw_layer σ.1 !! "dense_2" = Some (KModel 0 "input_1:0" (Tensor "dense_2/BiasAdd:0"))
  ∧ "dense_2" ∈ map name (layers classifier).
Proof.
  intros σ.
  assert (Hreach : reachable rewire xent classifier σ) by apply reachable_run.
  split_and!; [exact Hreach|reflexivity|].
  apply (cached_layer_models_sound rewire xent classifier σ "dense_2" _ Hreach eq_refl).
Defined.
End ExtraWitnesses.
